(** * esep-webhooks: the GitHub-issue to Slack relay of [lambda/lambda.py]

    A shallow embedding of [lambda_handler] and the properties of its
    response, its outbound request and its exits.

    The handler is a single Python function.  It reads one environment
    variable, decodes a JSON body, may send one HTTP POST and returns an
    API-Gateway response.  Its effects (lines printed, requests sent,
    exceptions raised) are threaded through a small writer/exception monad
    [Py]; the standard-library calls it makes ([json.loads], [json.dumps],
    [Request], [urlopen], [repr]) are taken as a [pylib] and a network
    oracle, so that every theorem holds whatever those calls return. *)

From Stdlib Require Import ZArith String Ascii List SpecFloat.
From stdpp Require Import base option list strings gmap pretty.

Set Warnings "-register-all".

Local Open Scope string_scope.
Local Open Scope list_scope.
Local Open Scope Z_scope.

(** ** Python values *)

(** The values a Lambda event, a JSON document or an environment lookup can
    be: [None], booleans, integers, floats, strings, lists and dictionaries
    with string keys.  A dictionary keeps its insertion order, which is the
    order [json.dumps] writes it in; lookups take the first binding. *)
Inductive pyval : Type :=
| PNone
| PBool (b : bool)
| PInt (n : Z)
| PFloat (x : spec_float)
| PStr (s : string)
| PList (l : list pyval)
| PDict (d : list (string * pyval)).

(** The exception classes the handler can meet.  All of them derive from
    [Exception]; [HTTPError] derives from [URLError]. *)
Inductive pyexc : Type :=
| TypeError
| ValueError
| KeyError
| AttributeError
| JSONDecodeError
| HTTPError (code : Z) (reason : string)
| URLError (reason : string)
| OtherError (class_name : string).

(** An [urllib.request.Request]: the URL, the POST data and the headers it
    was built with. *)
Record request : Type := Request_ {
  full_url : string;
  data : option (list Byte.byte);
  headers : list (string * string)
}.

(** [Request.get_method]: POST as soon as there is data. *)
Definition get_method (r : request) : string :=
  match data r with Some _ => "POST" | None => "GET" end.

(** ** Effects *)

(** What an invocation does besides returning: a line written by [print],
    or a request handed to [urlopen]. *)
Inductive effect : Type :=
| Print (line : string)
| UrlOpen (req : request).

Inductive outcome (A : Type) : Type :=
| Returned (a : A)
| Raised (e : pyexc).
Arguments Returned {A} a.
Arguments Raised {A} e.

(** A computation: the effects performed, in order, and how it ended. *)
Definition Py (A : Type) : Type := list effect * outcome A.

Definition trace {A} (m : Py A) : list effect := fst m.
Definition result {A} (m : Py A) : outcome A := snd m.

Global Instance Py_ret : MRet Py := λ A a, ([], Returned a).
Global Instance Py_bind : MBind Py := λ A B k m,
  match snd m with
  | Returned a => (fst m ++ fst (k a), snd (k a))
  | Raised e => (fst m, Raised e)
  end.

Definition raise {A} (e : pyexc) : Py A := ([], Raised e).
Definition print (line : string) : Py unit := ([Print line], Returned tt).

(** An [except] clause: the test of the exception's class and the body. *)
Definition clause (A : Type) : Type := (pyexc → bool) * (pyexc → Py A).

(** The first clause, in order, whose class the exception is an instance of. *)
Fixpoint select_clause {A} (clauses : list (clause A)) (e : pyexc)
    : option (pyexc → Py A) :=
  match clauses with
  | [] => None
  | (catches, h) :: rest => if catches e then Some h else select_clause rest e
  end.

(** [try: m except C1 as e: h1 except C2 as e: h2 ...]: when [m] raises, the
    first clause that matches runs, after the effects [m] had up to the
    raise; without a matching clause the exception goes on. *)
Definition try_except {A} (m : Py A) (clauses : list (clause A)) : Py A :=
  match snd m with
  | Returned a => m
  | Raised e => match select_clause clauses e with
                | Some h => (fst m ++ fst (h e), snd (h e))
                | None => m
                end
  end.

(** [isinstance(e, Exception)]: every class above is one. *)
Definition is_Exception (e : pyexc) : bool := true.
(** [isinstance(e, HTTPError)]. *)
Definition is_HTTPError (e : pyexc) : bool :=
  match e with HTTPError _ _ => true | _ => false end.
(** [isinstance(e, URLError)]: [HTTPError] is a subclass. *)
Definition is_URLError (e : pyexc) : bool :=
  match e with HTTPError _ _ | URLError _ => true | _ => false end.

(** [e.code] and [e.reason]: attributes of [HTTPError]; [URLError] has
    [reason] only. *)
Definition attr_code (e : pyexc) : Py Z :=
  match e with
  | HTTPError code _ => mret code
  | _ => raise AttributeError
  end.

Definition attr_reason (e : pyexc) : Py string :=
  match e with
  | HTTPError _ reason | URLError reason => mret reason
  | _ => raise AttributeError
  end.

(** ** Built-in operations *)

(** Truth value of an object, as [if], [and], [not] and [bool()] test it. *)
Definition py_truthy (v : pyval) : bool :=
  match v with
  | PNone => false
  | PBool b => b
  | PInt n => negb (n =? 0)
  | PFloat (S754_zero _) => false
  | PFloat _ => true
  | PStr s => negb (String.eqb s "")
  | PList l => match l with [] => false | _ => true end
  | PDict d => match d with [] => false | _ => true end
  end.

Definition isinstance_dict (v : pyval) : bool :=
  match v with PDict _ => true | _ => false end.

(** First binding of a key in a dictionary. *)
Fixpoint dict_lookup (d : list (string * pyval)) (k : string) : option pyval :=
  match d with
  | [] => None
  | (k', v) :: d' => if String.eqb k' k then Some v else dict_lookup d' k
  end.

(** [needle in hay] for two strings: [needle] occurs as a substring. *)
Fixpoint str_contains (needle hay : string) : bool :=
  String.prefix needle hay ||
  match hay with
  | EmptyString => false
  | String _ hay' => str_contains needle hay'
  end.

Definition is_str (k : string) (v : pyval) : bool :=
  match v with PStr s => String.eqb s k | _ => false end.

(** [key in container] for a string key: key membership for a dictionary,
    element membership for a list, substring test for a string, and
    [TypeError] (argument is not iterable) for every other object. *)
Definition py_contains (key : string) (container : pyval) : Py bool :=
  match container with
  | PDict d => mret (bool_decide (is_Some (dict_lookup d key)))
  | PList l => mret (existsb (is_str key) l)
  | PStr s => mret (str_contains key s)
  | PNone | PBool _ | PInt _ | PFloat _ => raise TypeError
  end.

(** [container[key]] for a string key: the value bound in a dictionary
    ([KeyError] when there is none); lists and strings take integer indices
    only and every other object is not subscriptable: [TypeError]. *)
Definition py_getitem (container : pyval) (key : string) : Py pyval :=
  match container with
  | PDict d => match dict_lookup d key with
               | Some v => mret v
               | None => raise KeyError
               end
  | _ => raise TypeError
  end.

(** [obj.get(key)]: the dictionary method, [None] when the key is absent;
    no other object of [pyval] has the attribute. *)
Definition py_get (obj : pyval) (key : string) : Py pyval :=
  match obj with
  | PDict d => mret (default PNone (dict_lookup d key))
  | _ => raise AttributeError
  end.

(** [a and b] under a truth test: [b] is evaluated only when [a] holds. *)
Definition py_and (a b : Py bool) : Py bool :=
  x ← a; if (x : bool) then b else mret false.

(** [os.environ] and [os.getenv(name)]. *)
Definition environ : Type := gmap string string.

Definition os_getenv (env : environ) (name : string) : pyval :=
  match env !! name with
  | Some s => PStr s
  | None => PNone
  end.

(** [str.encode("utf-8")]: strings are kept in UTF-8 already. *)
Definition encode_utf8 (s : string) : list Byte.byte := list_byte_of_string s.

(** ** The standard library and the network *)

(** The library calls whose results the handler only passes on. *)
Record pylib : Type := PyLib {
  (** [json.loads] on a [str]: [None] when decoding raises. *)
  json_decode : string → option pyval;
  (** [json.dumps]. *)
  json_dumps : pyval → string;
  (** [repr] of a float, a list or a dictionary. *)
  py_repr : pyval → string;
  (** The scheme test of the [Request] constructor: whether the URL starts
      with a scheme, [Request] raising [ValueError] (unknown url type)
      otherwise. *)
  url_type_known : string → bool
}.

(** What [urlopen] does with a request in one invocation: it returns a
    response, of which the handler reads [status], or raises.  The oracle
    stands for the network as that invocation meets it, proxy settings of
    its environment included; two invocations are compared under two
    oracles. *)
Definition network : Type := request → outcome Z.

Section Handler.

Variable lib : pylib.
Variable net : network.
Variable env : environ.

(** [str(v)], which is how an f-string formats a value. *)
Definition py_str (v : pyval) : string :=
  match v with
  | PStr s => s
  | PNone => "None"
  | PBool true => "True"
  | PBool false => "False"
  | PInt n => pretty n
  | PFloat _ | PList _ | PDict _ => py_repr lib v
  end.

(** [json.loads(body)]: anything but text is a [TypeError], text that does
    not decode a [JSONDecodeError]. *)
Definition json_loads (body : pyval) : Py pyval :=
  match body with
  | PStr s => match json_decode lib s with
              | Some v => mret v
              | None => raise JSONDecodeError
              end
  | _ => raise TypeError
  end.

(** [Request(url, data=data, headers=headers)]. *)
Definition Request (url : pyval) (data : list Byte.byte)
    (headers : list (string * string)) : Py request :=
  let u := py_str url in
  if url_type_known lib u
  then mret {| full_url := u; data := Some data; headers := headers |}
  else raise ValueError.

(** [urlopen(request)], giving the [status] of the response. *)
Definition urlopen (req : request) : Py Z := ([UrlOpen req], net req).

(** The text sent to Slack for an issue URL. *)
Definition slack_text (issue_url : pyval) : string :=
  ":tada: New GitHub Issue created: " +:+ py_str issue_url.

(** The dictionary that becomes the body of the response. *)
Definition response_body (issue_url slack_url : pyval) : pyval :=
  PDict [("message", PStr "success");
         ("issueUrl", issue_url);
         ("connectedToSlack", PBool (py_truthy slack_url))].

(** The API-Gateway response for a response body. *)
Definition response (response_body : pyval) : pyval :=
  PDict [("statusCode", PInt 200);
         ("body", PStr (json_dumps lib response_body))].

(** Lines 50-53: the body of the event. *)
Definition resolve_body (event : pyval) : Py pyval :=
  has_body ← py_and (mret (isinstance_dict event)) (py_contains "body" event);
  if (has_body : bool) then py_getitem event "body" else mret event.

(** Lines 58-62: the payload. *)
Definition parse_payload (body : pyval) : Py pyval :=
  try_except (json_loads body)
    [(is_Exception, λ _, mret (PDict [("raw", body)]))].

(** Lines 67-70: the issue URL. *)
Definition extract_issue_url (payload : pyval) : Py pyval :=
  has_issue ← py_and (py_contains "issue" payload)
                     (issue ← py_getitem payload "issue";
                      mret (isinstance_dict issue));
  if (has_issue : bool)
  then issue ← py_getitem payload "issue"; py_get issue "html_url"
  else mret PNone.

(** Lines 75-101: the notification. *)
Definition notify (issue_url slack_url : pyval) : Py unit :=
  if py_truthy issue_url && py_truthy slack_url then
    let message := PDict [("text", PStr (slack_text issue_url))] in
    let data := encode_utf8 (json_dumps lib message) in
    request ← Request slack_url data [("Content-Type", "application/json")];
    try_except
      (status ← urlopen request;
       print ("[EsepWebhook] Message posted to Slack. Status: "
              +:+ pretty (status : Z)))
      [(is_HTTPError,
        λ e, code ← attr_code e; reason ← attr_reason e;
             print ("[EsepWebhook] Slack HTTPError " +:+ pretty (code : Z)
                    +:+ ": " +:+ reason));
       (is_URLError,
        λ e, reason ← attr_reason e;
             print ("[EsepWebhook] Slack URLError: " +:+ reason))]
  else if py_truthy issue_url then
    print "[EsepWebhook] IssueURL detected but SLACK_URL not configured."
  else
    print "[EsepWebhook] No issueURL found in payload.".

(** [lambda_handler(event, context)]. *)
Definition lambda_handler (event context : pyval) : Py pyval :=
  let slack_url := os_getenv env "SLACK_URL" in
  (if negb (py_truthy slack_url)
   then print "[EsepWebhook] SLACK_URL not set in environment variables."
   else mret tt);;
  body ← resolve_body event;
  payload ← parse_payload body;
  issue_url ← extract_issue_url payload;
  notify issue_url slack_url;;
  mret (response (response_body issue_url slack_url)).

End Handler.

(** ** Vocabulary of the properties *)

(** The requests an invocation handed to [urlopen], in order. *)
Fixpoint posts (t : list effect) : list request :=
  match t with
  | [] => []
  | UrlOpen req :: t' => req :: posts t'
  | Print _ :: t' => posts t'
  end.

(** The lines an invocation printed, in order. *)
Fixpoint prints (t : list effect) : list string :=
  match t with
  | [] => []
  | Print line :: t' => line :: prints t'
  | UrlOpen _ :: t' => prints t'
  end.

(** An outcome of [urlopen] the handler goes on after: a response, or an
    exception of class [URLError] ([HTTPError] included). *)
Definition handled (o : outcome Z) : bool :=
  match o with
  | Returned _ => true
  | Raised e => is_URLError e
  end.

(** The value of [SLACK_URL] is set and not empty. *)
Definition configured (env : environ) : bool :=
  py_truthy (os_getenv env "SLACK_URL").

(** The issue URL of a payload that is a dictionary. *)
Definition issue_url_of (d : list (string * pyval)) : pyval :=
  match dict_lookup d "issue" with
  | Some (PDict issue) => default PNone (dict_lookup issue "html_url")
  | _ => PNone
  end.

(** The request the handler builds for an issue URL and a destination. *)
Definition slack_request (lib : pylib) (issue_url : pyval) (url : string)
    : request :=
  {| full_url := url;
     data := Some (encode_utf8
               (json_dumps lib (PDict [("text", PStr (slack_text lib issue_url))])));
     headers := [("Content-Type", "application/json")] |}.

(** The body of an event: the value under ["body"] of a dictionary that has
    the key, the event itself otherwise. *)
Definition body_of (event : pyval) : pyval :=
  match event with
  | PDict d => default event (dict_lookup d "body")
  | _ => event
  end.

(** The payload: what the body decodes to, and [{"raw": body}] when
    [json.loads] raises. *)
Definition payload_of (lib : pylib) (body : pyval) : pyval :=
  match body with
  | PStr s => default (PDict [("raw", body)]) (json_decode lib s)
  | _ => PDict [("raw", body)]
  end.

(** The line printed first when [SLACK_URL] is unset or empty. *)
Definition warn_unset (env : environ) : Py unit :=
  if negb (configured env)
  then print "[EsepWebhook] SLACK_URL not set in environment variables."
  else mret tt.


(** ** A reference library

    The library calls of CPython 3, for running the handler on concrete
    events: the JSON decoder and encoder of the [json] module with its
    default options, [repr], and the scheme test of
    [urllib.request.Request].  Text is UTF-8; [repr] and [strip] are exact
    on ASCII text, and the decoder puts no bound on the nesting of lists
    and objects. *)
Module Reference.

Local Open Scope N_scope.

Definition code (c : ascii) : N := N_of_ascii c.
Definition chr (n : N) : ascii := ascii_of_N n.

Definition dquote : ascii := "034"%char.
Definition squote : ascii := "'"%char.
Definition backslash : ascii := "\"%char.

Definition str1 (c : ascii) : string := String c EmptyString.

(** A JSON text written with apostrophes in the place of double quotes. *)
Fixpoint dq (s : string) : string :=
  match s with
  | EmptyString => EmptyString
  | String c rest => String (if (c =? squote)%char then dquote else c) (dq rest)
  end.

Definition is_digit (c : ascii) : bool := (48 <=? code c) && (code c <=? 57).
Definition digit_val (c : ascii) : N := code c - 48.

Definition hex_val (c : ascii) : option N :=
  let n := code c in
  if (48 <=? n) && (n <=? 57) then Some (n - 48)
  else if (97 <=? n) && (n <=? 102) then Some (n - 87)
  else if (65 <=? n) && (n <=? 70) then Some (n - 55)
  else None.

Definition hex_digit (n : N) : ascii :=
  if n <? 10 then chr (48 + n) else chr (87 + n).

Definition hex4 (a b c d : ascii) : option N :=
  x ← hex_val a; y ← hex_val b; z ← hex_val c; w ← hex_val d;
  Some (((x * 16 + y) * 16 + z) * 16 + w).

(** *** UTF-8 *)

Definition utf8_encode (cp : N) : string :=
  if cp <? 128 then str1 (chr cp)
  else if cp <? 2048 then
    String (chr (192 + cp / 64)) (str1 (chr (128 + cp mod 64)))
  else if cp <? 65536 then
    String (chr (224 + cp / 4096))
      (String (chr (128 + (cp / 64) mod 64)) (str1 (chr (128 + cp mod 64))))
  else
    String (chr (240 + cp / 262144))
      (String (chr (128 + (cp / 4096) mod 64))
         (String (chr (128 + (cp / 64) mod 64)) (str1 (chr (128 + cp mod 64))))).

Fixpoint utf8_decode (s : string) : list N :=
  match s with
  | EmptyString => []
  | String c rest =>
      let b := code c in
      if (192 <=? b) && (b <? 224) then
        match rest with
        | String c1 r => (b mod 32 * 64 + code c1 mod 64) :: utf8_decode r
        | _ => [b]
        end
      else if (224 <=? b) && (b <? 240) then
        match rest with
        | String c1 (String c2 r) =>
            ((b mod 16 * 64 + code c1 mod 64) * 64 + code c2 mod 64)
              :: utf8_decode r
        | _ => b :: utf8_decode rest
        end
      else if 240 <=? b then
        match rest with
        | String c1 (String c2 (String c3 r)) =>
            (((b mod 8 * 64 + code c1 mod 64) * 64 + code c2 mod 64) * 64
             + code c3 mod 64) :: utf8_decode r
        | _ => b :: utf8_decode rest
        end
      else b :: utf8_decode rest
  end.

(** *** Floats *)

(** The binary64 nearest to [m * 10^e10], ties to even. *)
Definition dec_to_float (neg : bool) (m : N) (e10 : Z) : spec_float :=
  match m with
  | N0 => S754_zero neg
  | Npos p =>
      if (0 <=? e10)%Z
      then binary_round 53 1024 neg (p * Z.to_pos (10 ^ e10))%positive 0
      else SFdiv 53 1024 (S754_finite neg p 0)
             (S754_finite false (Z.to_pos (10 ^ (- e10))) 0)
  end.

(** *** [json.loads] *)

Definition is_ws (c : ascii) : bool :=
  let n := code c in (n =? 32) || (n =? 9) || (n =? 10) || (n =? 13).

Fixpoint skip_ws (s : string) : string :=
  match s with
  | String c rest => if is_ws c then skip_ws rest else s
  | EmptyString => s
  end.

(** The rest of [s] after the prefix [p]. *)
Fixpoint strip_prefix (p s : string) : option string :=
  match p, s with
  | EmptyString, _ => Some s
  | String a p', String b s' => if (a =? b)%char then strip_prefix p' s' else None
  | String _ _, EmptyString => None
  end.

Definition simple_escape (c : ascii) : option ascii :=
  if (c =? dquote)%char then Some dquote
  else if (c =? backslash)%char then Some backslash
  else if (c =? "/")%char then Some "/"%char
  else if (c =? "b")%char then Some (chr 8)
  else if (c =? "f")%char then Some (chr 12)
  else if (c =? "n")%char then Some (chr 10)
  else if (c =? "r")%char then Some (chr 13)
  else if (c =? "t")%char then Some (chr 9)
  else None.

Definition is_high_surrogate (cp : N) : bool := (55296 <=? cp) && (cp <=? 56319).
Definition is_low_surrogate (cp : N) : bool := (56320 <=? cp) && (cp <=? 57343).

(** The text of a string, from after its opening quote to the closing one;
    control characters and unknown escapes are errors. *)
Fixpoint scan_string (s : string) : option (string * string) :=
  match s with
  | EmptyString => None
  | String c rest =>
      if (c =? dquote)%char then Some (EmptyString, rest)
      else if (c =? backslash)%char then
        match rest with
        | String e rest1 =>
            if (e =? "u")%char then
              match rest1 with
              | String h1 (String h2 (String h3 (String h4 rest2))) =>
                  cp ← hex4 h1 h2 h3 h4;
                  match rest2 with
                  | String b (String u (String k1 (String k2
                      (String k3 (String k4 rest3))))) =>
                      if is_high_surrogate cp && (b =? backslash)%char
                         && (u =? "u")%char
                      then
                        cp2 ← hex4 k1 k2 k3 k4;
                        if is_low_surrogate cp2 then
                          '(str, r) ← scan_string rest3;
                          Some (utf8_encode (65536 + (cp - 55296) * 1024
                                             + (cp2 - 56320)) +:+ str, r)
                        else
                          '(str, r) ← scan_string rest2;
                          Some (utf8_encode cp +:+ str, r)
                      else
                        '(str, r) ← scan_string rest2;
                        Some (utf8_encode cp +:+ str, r)
                  | _ =>
                      '(str, r) ← scan_string rest2;
                      Some (utf8_encode cp +:+ str, r)
                  end
              | _ => None
              end
            else
              ch ← simple_escape e;
              '(str, r) ← scan_string rest1;
              Some (String ch str, r)
        | EmptyString => None
        end
      else if code c <? 32 then None
      else '(str, r) ← scan_string rest; Some (String c str, r)
  end.

Fixpoint span_digits (s : string) : list N * string :=
  match s with
  | String c rest =>
      if is_digit c
      then let '(ds, r) := span_digits rest in (digit_val c :: ds, r)
      else ([], s)
  | EmptyString => ([], s)
  end.

Definition digits_value (ds : list N) : N :=
  fold_left (λ acc d, acc * 10 + d) ds 0.

(** The longest integers [int()] converts from text. *)
Definition int_max_str_digits : nat := 4300.

(** A number: an optional minus sign, an integer part without leading
    zeros, an optional fraction (a dot and digits) and an optional exponent
    (e or E, an optional sign and digits); an [int] without fraction and
    exponent, a [float] otherwise. *)
Definition scan_number (s : string) : option (pyval * string) :=
  let '(neg, s1) :=
    match s with
    | String c r => if (c =? "-")%char then (true, r) else (false, s)
    | EmptyString => (false, s)
    end in
  match s1 with
  | String c r1 =>
      if is_digit c then
        let '(ids, s2) :=
          if (c =? "0")%char then ([0], r1) else span_digits s1 in
        let '(fds, s3) :=
          match s2 with
          | String p r2 =>
              if (p =? ".")%char then
                match span_digits r2 with
                | ([], _) => ([], s2)
                | (ds, r3) => (ds, r3)
                end
              else ([], s2)
          | EmptyString => ([], s2)
          end in
        let '(ex, s4) :=
          match s3 with
          | String e r3 =>
              if (e =? "e")%char || (e =? "E")%char then
                let '(eneg, r4) :=
                  match r3 with
                  | String sg r =>
                      if (sg =? "-")%char then (true, r)
                      else if (sg =? "+")%char then (false, r)
                      else (false, r3)
                  | EmptyString => (false, r3)
                  end in
                match span_digits r4 with
                | ([], _) => (None, s3)
                | (ds, r5) =>
                    let v := Z.of_N (digits_value ds) in
                    (Some (if eneg then (- v)%Z else v), r5)
                end
              else (None, s3)
          | EmptyString => (None, s3)
          end in
        match fds, ex with
        | [], None =>
            if (int_max_str_digits <? length ids)%nat then None
            else
              let v := Z.of_N (digits_value ids) in
              Some (PInt (if neg then (- v)%Z else v), s4)
        | _, _ =>
            Some (PFloat (dec_to_float neg (digits_value (ids ++ fds))
                            (default 0%Z ex - Z.of_nat (length fds))%Z), s4)
        end
      else None
  | EmptyString => None
  end.

(** Binding a key of a dictionary: in place when the key is there, at the
    end otherwise. *)
Fixpoint dict_set (d : list (string * pyval)) (k : string) (v : pyval)
    : list (string * pyval) :=
  match d with
  | [] => [(k, v)]
  | (k', v') :: d' =>
      if String.eqb k' k then (k', v) :: d' else (k', v') :: dict_set d' k v
  end.

(** One JSON value at the start of the text, and the rest of the text. *)
Fixpoint scan_value (fuel : nat) (s : string) : option (pyval * string) :=
  match fuel with
  | O => None
  | S fuel =>
      match s with
      | EmptyString => None
      | String c rest =>
          if (c =? dquote)%char then
            '(str, r) ← scan_string rest; Some (PStr str, r)
          else if (c =? "{")%char then
            match skip_ws rest with
            | String c1 r1 =>
                if (c1 =? "}")%char then Some (PDict [], r1)
                else scan_members fuel (String c1 r1) []
            | EmptyString => None
            end
          else if (c =? "[")%char then
            match skip_ws rest with
            | String c1 r1 =>
                if (c1 =? "]")%char then Some (PList [], r1)
                else scan_elements fuel (String c1 r1) []
            | EmptyString => None
            end
          else if (c =? "n")%char then
            r ← strip_prefix "null" s; Some (PNone, r)
          else if (c =? "t")%char then
            r ← strip_prefix "true" s; Some (PBool true, r)
          else if (c =? "f")%char then
            r ← strip_prefix "false" s; Some (PBool false, r)
          else if (c =? "N")%char then
            r ← strip_prefix "NaN" s; Some (PFloat S754_nan, r)
          else if (c =? "I")%char then
            r ← strip_prefix "Infinity" s; Some (PFloat (S754_infinity false), r)
          else
            match strip_prefix "-Infinity" s with
            | Some r => Some (PFloat (S754_infinity true), r)
            | None => scan_number s
            end
      end
  end
with scan_elements (fuel : nat) (s : string) (acc : list pyval)
    : option (pyval * string) :=
  match fuel with
  | O => None
  | S fuel =>
      '(v, r) ← scan_value fuel s;
      match skip_ws r with
      | String c r1 =>
          if (c =? ",")%char then scan_elements fuel (skip_ws r1) (v :: acc)
          else if (c =? "]")%char then Some (PList (rev (v :: acc)), r1)
          else None
      | EmptyString => None
      end
  end
with scan_members (fuel : nat) (s : string) (acc : list (string * pyval))
    : option (pyval * string) :=
  match fuel with
  | O => None
  | S fuel =>
      match s with
      | String c rest =>
          if (c =? dquote)%char then
            '(k, r1) ← scan_string rest;
            match skip_ws r1 with
            | String c2 r2 =>
                if (c2 =? ":")%char then
                  '(v, r3) ← scan_value fuel (skip_ws r2);
                  match skip_ws r3 with
                  | String c4 r4 =>
                      if (c4 =? ",")%char
                      then scan_members fuel (skip_ws r4) (dict_set acc k v)
                      else if (c4 =? "}")%char
                      then Some (PDict (dict_set acc k v), r4)
                      else None
                  | EmptyString => None
                  end
                else None
            | EmptyString => None
            end
          else None
      | EmptyString => None
      end
  end.

(** [json.loads] on text: one value between blanks, and nothing else. *)
Definition loads (s : string) : option pyval :=
  '(v, r) ← scan_value (2 * String.length s + 2) (skip_ws s);
  match skip_ws r with
  | EmptyString => Some v
  | String _ _ => None
  end.

(** *** [repr] of a float *)

(** The decimal digits of a number, most significant first. *)
Definition digits_of (n : N) : list N :=
  (λ c, digit_val c) <$> list_ascii_of_string (pretty n).

Fixpoint strip_zeros_rev (ds : list N) : list N :=
  match ds with
  | 0 :: ds' => strip_zeros_rev ds'
  | _ => ds
  end.

Definition strip_trailing_zeros (ds : list N) : list N :=
  rev (strip_zeros_rev (rev ds)).

(** The least [k], from [k0] on, with [num / den < 10^k]. *)
Fixpoint magnitude (fuel : nat) (k0 : Z) (num den : Z) : Z :=
  match fuel with
  | O => k0
  | S fuel =>
      if (if (0 <=? k0)%Z then (num <? den * 10 ^ k0)%Z
          else (num * 10 ^ (- k0) <? den)%Z)
      then k0
      else magnitude fuel (k0 + 1)%Z num den
  end.

(** The shortest digit string that converts back to the float [m * 2^e],
    and the position of its decimal point: for each length, the two
    neighbours of the exact value are tried, the nearer one first. *)
Fixpoint shortest_digits (tries : nat) (n : Z) (m : positive) (e : Z)
    (k : Z) (num den : Z) : list N * Z :=
  match tries with
  | O => ([], k)
  | S tries =>
      let a := if (0 <=? n - k)%Z then (num * 10 ^ (n - k))%Z else num in
      let b := if (0 <=? n - k)%Z then den else (den * 10 ^ (k - n))%Z in
      let lo := (a / b)%Z in
      let r := (a mod b)%Z in
      let back (c : Z) :=
        SFeqb (dec_to_float false (Z.to_N c) (k - n)) (S754_finite false m e) in
      let out (c : Z) :=
        let ds := digits_of (Z.to_N c) in
        (strip_trailing_zeros ds, (k + (Z.of_nat (length ds) - n))%Z) in
      let lo_first := (2 * r <? b)%Z || ((2 * r =? b)%Z && Z.even lo) in
      let c1 := if lo_first then lo else (lo + 1)%Z in
      let c2 := if lo_first then (lo + 1)%Z else lo in
      if (r =? 0)%Z then
        if back lo then out lo else shortest_digits tries (n + 1)%Z m e k num den
      else if back c1 then out c1
      else if back c2 then out c2
      else shortest_digits tries (n + 1)%Z m e k num den
  end.

Definition digits_text (ds : list N) : string :=
  string_of_list_ascii ((λ d, chr (48 + d)) <$> ds).

Definition zeros (n : Z) : string :=
  string_of_list_ascii (replicate (Z.to_nat n) "0"%char).

(** [repr] of a finite, non-zero float from its digits and decimal point:
    positional for a point within (-4, 16], with an exponent otherwise. *)
Definition format_digits (ds : list N) (decpt : Z) : string :=
  let n := Z.of_nat (length ds) in
  if ((-4 <? decpt) && (decpt <=? 16))%Z then
    if (decpt <=? 0)%Z then "0." +:+ zeros (- decpt) +:+ digits_text ds
    else if (n <=? decpt)%Z then digits_text ds +:+ zeros (decpt - n) +:+ ".0"
    else digits_text (take (Z.to_nat decpt) ds) +:+ "."
         +:+ digits_text (drop (Z.to_nat decpt) ds)
  else
    let ex := (decpt - 1)%Z in
    digits_text (take 1 ds)
    +:+ (match drop 1 ds with [] => EmptyString | tl => "." +:+ digits_text tl end)
    +:+ "e" +:+ (if (ex <? 0)%Z then "-" else "+")
    +:+ (if (Z.abs ex <? 10)%Z then "0" else EmptyString)
    +:+ pretty (Z.abs ex).

Definition float_repr (x : spec_float) : string :=
  match x with
  | S754_zero s => if s then "-0.0" else "0.0"
  | S754_infinity s => if s then "-inf" else "inf"
  | S754_nan => "nan"
  | S754_finite s m e =>
      let num := if (0 <=? e)%Z then (Z.pos m * 2 ^ e)%Z else Z.pos m in
      let den := if (0 <=? e)%Z then 1%Z else (2 ^ (- e))%Z in
      let k := magnitude 700 (-330) num den in
      let '(ds, decpt) := shortest_digits 17 1 m e k num den in
      (if s then "-" else EmptyString) +:+ format_digits ds decpt
  end.

(** *** [json.dumps] *)

Definition hex4_text (n : N) : string :=
  String (hex_digit (n / 4096 mod 16)) (String (hex_digit (n / 256 mod 16))
    (String (hex_digit (n / 16 mod 16)) (str1 (hex_digit (n mod 16))))).

(** One code point inside a JSON string, ASCII only. *)
Definition json_escape (cp : N) : string :=
  if cp =? 34 then String backslash (str1 dquote)
  else if cp =? 92 then "\\"
  else if cp =? 10 then "\n"
  else if cp =? 13 then "\r"
  else if cp =? 9 then "\t"
  else if cp =? 8 then "\b"
  else if cp =? 12 then "\f"
  else if (32 <=? cp) && (cp <=? 126) then str1 (chr cp)
  else if cp <? 65536 then "\u" +:+ hex4_text cp
  else "\u" +:+ hex4_text (55296 + (cp - 65536) / 1024)
       +:+ "\u" +:+ hex4_text (56320 + (cp - 65536) mod 1024).

Definition json_string (s : string) : string :=
  str1 dquote +:+ String.concat EmptyString (json_escape <$> utf8_decode s)
  +:+ str1 dquote.

Definition json_float (x : spec_float) : string :=
  match x with
  | S754_nan => "NaN"
  | S754_infinity s => if s then "-Infinity" else "Infinity"
  | _ => float_repr x
  end.

Fixpoint dumps (v : pyval) : string :=
  match v with
  | PNone => "null"
  | PBool b => if b then "true" else "false"
  | PInt n => pretty n
  | PFloat x => json_float x
  | PStr s => json_string s
  | PList l => "[" +:+ String.concat ", " (map dumps l) +:+ "]"
  | PDict d =>
      "{" +:+ String.concat ", "
                (map (λ kv, json_string (fst kv) +:+ ": " +:+ dumps (snd kv)) d)
      +:+ "}"
  end.

(** *** [repr] *)

Definition hex2_text (n : N) : string :=
  String (hex_digit (n / 16 mod 16)) (str1 (hex_digit (n mod 16))).

Definition repr_char (quote : ascii) (c : ascii) : string :=
  if (c =? quote)%char then String backslash (str1 quote)
  else if (c =? backslash)%char then "\\"
  else if code c =? 10 then "\n"
  else if code c =? 13 then "\r"
  else if code c =? 9 then "\t"
  else if (code c <? 32) || (code c =? 127) then "\x" +:+ hex2_text (code c)
  else str1 c.

Definition repr_str (s : string) : string :=
  let quote :=
    if str_contains (str1 squote) s && negb (str_contains (str1 dquote) s)
    then dquote else squote in
  str1 quote
  +:+ String.concat EmptyString (repr_char quote <$> list_ascii_of_string s)
  +:+ str1 quote.

Fixpoint repr (v : pyval) : string :=
  match v with
  | PNone => "None"
  | PBool b => if b then "True" else "False"
  | PInt n => pretty n
  | PFloat x => float_repr x
  | PStr s => repr_str s
  | PList l => "[" +:+ String.concat ", " (map repr l) +:+ "]"
  | PDict d =>
      "{" +:+ String.concat ", "
                (map (λ kv, repr_str (fst kv) +:+ ": " +:+ repr (snd kv)) d)
      +:+ "}"
  end.

(** *** The scheme test of [Request] *)

(** White space as [str.strip] takes it, in ASCII. *)
Definition is_space (c : ascii) : bool :=
  let n := code c in ((9 <=? n) && (n <=? 13)) || ((28 <=? n) && (n <=? 32)).

Fixpoint lstrip (s : string) : string :=
  match s with
  | String c rest => if is_space c then lstrip rest else s
  | EmptyString => s
  end.

Definition strip (s : string) : string :=
  String.rev (lstrip (String.rev (lstrip s))).

Definition last_char (s : string) : option ascii :=
  match String.rev s with String c _ => Some c | EmptyString => None end.

Definition drop_last (s : string) : string :=
  match String.rev s with String _ r => String.rev r | EmptyString => s end.

(** [urllib.parse.unwrap]: blanks, angle brackets and a [URL:] prefix go. *)
Definition unwrap (url : string) : string :=
  let u := strip url in
  let u := match u with
           | String c rest =>
               if (c =? "<")%char && bool_decide (last_char u = Some ">"%char)
               then strip (drop_last rest) else u
           | EmptyString => u
           end in
  match strip_prefix "URL:" u with
  | Some rest => strip rest
  | None => u
  end.

(** The text before the last [#]: [Request] keeps the fragment apart. *)
Fixpoint before_last_hash (s : string) : option string :=
  match s with
  | EmptyString => None
  | String c rest =>
      match before_last_hash rest with
      | Some p => Some (String c p)
      | None => if (c =? "#")%char then Some EmptyString else None
      end
  end.

(** One or more characters other than [/] and [:], and then a [:]. *)
Fixpoint has_scheme (nonempty : bool) (s : string) : bool :=
  match s with
  | EmptyString => false
  | String c rest =>
      if (c =? ":")%char then nonempty
      else if (c =? "/")%char then false
      else has_scheme true rest
  end.

Definition known_url_type (url : string) : bool :=
  let u := unwrap url in
  has_scheme false (default u (before_last_hash u)).

(** The library. *)
Definition cpython : pylib :=
  {| json_decode := loads;
     json_dumps := dumps;
     py_repr := repr;
     url_type_known := known_url_type |}.

End Reference.

(** ** Scenarios

    Events, environments and networks for running the handler. *)
Module Scenario.

Import Reference.

(** The event of the gateway for a created issue. *)
Definition issue_url : string := "https://github.com/org/repo/issues/5".
Definition issue_body : string :=
  dq "{'issue': {'html_url': 'https://github.com/org/repo/issues/5'}}".
Definition issue_event : pyval := PDict [("body", PStr issue_body)].

(** An issue whose URL is the empty string. *)
Definition blank_issue_event : pyval :=
  PDict [("body", PStr (dq "{'issue': {'html_url': ''}}"))].

(** An event of another kind, without issue. *)
Definition ping_event : pyval :=
  PDict [("headers", PDict [("X-GitHub-Event", PStr "ping")]);
         ("body", PStr (dq "{'zen': 'Keep it logically awesome.'}"))].

(** Bodies that are JSON but no object. *)
Definition number_event : pyval := PDict [("body", PStr "5")].
Definition null_event : pyval := PDict [("body", PStr "null")].
Definition true_event : pyval := PDict [("body", PStr "true")].
Definition list_event : pyval := PDict [("body", PStr (dq "['issue']"))].
Definition text_event : pyval := PDict [("body", PStr (dq "'an issue was opened'"))].

(** A body that is no JSON. *)
Definition garbage_event : pyval := PDict [("body", PStr "not json")].

(** The environment with [SLACK_URL] set. *)
Definition env_with (url : string) : environ := {["SLACK_URL" := url]}.
Definition hook : string := "https://hooks.slack.com/services/T000/B000/XXXX".

(** Slack answers 200; the host refuses the connection; Slack answers 404;
    the connection is closed before any answer. *)
Definition slack_up : network := λ _, Returned 200%Z.
Definition slack_unreachable : network :=
  λ _, Raised (URLError "[Errno 111] Connection refused").
Definition slack_not_found : network :=
  λ _, Raised (HTTPError 404 "Not Found").
Definition slack_disconnects : network :=
  λ _, Raised (OtherError "http.client.RemoteDisconnected").

End Scenario.

(** Further events, for the runs of the last part. *)
Module Scenario2.

Import Reference.

(** The decoded payload passed as the event itself, without envelope. *)
Definition decoded_event : pyval :=
  PDict [("action", PStr "opened");
         ("issue", PDict [("html_url", PStr Scenario.issue_url)])].

(** An issue whose ["html_url"] is the number 5, and one where it is 0. *)
Definition numbered_issue_event : pyval :=
  PDict [("body", PStr (dq "{'issue': {'html_url': 5}}"))].
Definition zero_issue_event : pyval :=
  PDict [("body", PStr (dq "{'issue': {'html_url': 0}}"))].

(** An ["issue"] that is no object. *)
Definition flat_issue_event : pyval :=
  PDict [("body", PStr (dq "{'issue': 'https://github.com/org/repo/issues/5'}"))].

(** An environment with other variables only. *)
Definition env_other : environ := {["AWS_REGION" := "us-east-1"]}.

End Scenario2.
(** ** What the steps of the handler compute *)

Lemma bind_returned {A B} (a : A) (k : A → Py B) (t : list effect) :
  (((t, Returned a) : Py A) ≫= k) = (t ++ fst (k a), snd (k a)).
Proof. reflexivity. Qed.

Lemma bind_raised {A B} (e : pyexc) (k : A → Py B) (t : list effect) :
  (((t, Raised e) : Py A) ≫= k) = (t, Raised e).
Proof. reflexivity. Qed.

Lemma bind_mret {A B} (a : A) (k : A → Py B) : (mret a ≫= k) = k a.
Proof. unfold mret, Py_ret. rewrite bind_returned. simpl. by destruct (k a). Qed.

Lemma posts_app (t1 t2 : list effect) : posts (t1 ++ t2) = posts t1 ++ posts t2.
Proof.
  induction t1 as [|[line|req] t1 IH]; simpl; [done| |]; by rewrite IH.
Qed.

Lemma configured_spec (env : environ) :
  configured env = true ↔ ∃ s, env !! "SLACK_URL" = Some s ∧ s ≠ "".
Proof.
  unfold configured, os_getenv.
  destruct (env !! "SLACK_URL") as [s|] eqn:E; simpl.
  - rewrite negb_true_iff. split.
    + intros H. exists s. split; [done|]. intros ->. by rewrite String.eqb_refl in H.
    + intros (s' & [= <-] & Hne). by apply String.eqb_neq.
  - split; [done|]. by intros (s & ? & _).
Qed.

(** The body of the event: the value under ["body"] of a dictionary that
    has the key, the event otherwise; nothing is printed or raised. *)
Lemma resolve_body_dict_body (d : list (string * pyval)) (b : pyval) :
  dict_lookup d "body" = Some b → resolve_body (PDict d) = mret b.
Proof.
  intros H. unfold resolve_body, py_and, py_contains, py_getitem.
  rewrite !bind_mret. simpl isinstance_dict. cbv iota.
  rewrite bind_mret. rewrite bool_decide_true by (rewrite H; by eexists).
  by rewrite H.
Qed.

Lemma resolve_body_dict_nobody (d : list (string * pyval)) :
  dict_lookup d "body" = None → resolve_body (PDict d) = mret (PDict d).
Proof.
  intros H. unfold resolve_body, py_and, py_contains.
  rewrite !bind_mret. simpl isinstance_dict. cbv iota.
  rewrite bind_mret. rewrite bool_decide_false; [done|].
  rewrite H. by intros [? ?].
Qed.

Lemma resolve_body_not_dict (event : pyval) :
  isinstance_dict event = false → resolve_body event = mret event.
Proof.
  intros H. unfold resolve_body, py_and. rewrite bind_mret, H.
  by rewrite bind_mret.
Qed.

(** [resolve_body] always returns, without effects. *)
Lemma resolve_body_total (event : pyval) :
  ∃ body, resolve_body event = mret body.
Proof.
  destruct (isinstance_dict event) eqn:E.
  - destruct event; try discriminate.
    destruct (dict_lookup d "body") as [b|] eqn:Hb.
    + exists b. by apply resolve_body_dict_body.
    + eexists. by apply resolve_body_dict_nobody.
  - eexists. by apply resolve_body_not_dict.
Qed.

Lemma parse_payload_total (lib : pylib) (body : pyval) :
  parse_payload lib body = mret (payload_of lib body).
Proof.
  unfold parse_payload, try_except, json_loads, payload_of.
  destruct body; try reflexivity.
  by destruct (json_decode lib s).
Qed.

Lemma extract_issue_url_dict (d : list (string * pyval)) :
  extract_issue_url (PDict d) = mret (issue_url_of d).
Proof.
  unfold extract_issue_url, py_and, py_contains, py_getitem, issue_url_of.
  rewrite bind_mret.
  destruct (dict_lookup d "issue") as [v|] eqn:E.
  - rewrite bool_decide_true by by eexists.
    rewrite !bind_mret. destruct v; rewrite ?bind_mret; reflexivity.
  - rewrite bool_decide_false by (by intros [? ?]).
    by rewrite !bind_mret.
Qed.

Lemma resolve_body_eq (event : pyval) : resolve_body event = mret (body_of event).
Proof.
  destruct (isinstance_dict event) eqn:E.
  - destruct event; try discriminate. unfold body_of.
    destruct (dict_lookup d "body") as [b|] eqn:Hb; simpl.
    + by apply resolve_body_dict_body.
    + by apply resolve_body_dict_nobody.
  - rewrite resolve_body_not_dict by done. by destruct event.
Qed.

Lemma result_bind {A B} (m : Py A) (k : A → Py B) :
  result (m ≫= k) =
  match result m with
  | Returned a => result (k a)
  | Raised e => Raised e
  end.
Proof. destruct m as [t [a|e]]; reflexivity. Qed.

Lemma trace_bind {A B} (m : Py A) (k : A → Py B) :
  trace (m ≫= k) =
  trace m ++ match result m with
             | Returned a => trace (k a)
             | Raised _ => []
             end.
Proof.
  destruct m as [t [a|e]]; unfold trace; simpl; [done|].
  by rewrite app_nil_r.
Qed.

Lemma Py_eq {A} (m1 m2 : Py A) :
  trace m1 = trace m2 → result m1 = result m2 → m1 = m2.
Proof. destruct m1, m2; simpl; by intros -> ->. Qed.

(** *** The notification step *)

(** Without an issue URL or without a destination nothing is sent: one line
    is printed. *)
Lemma notify_skipped (lib : pylib) (net : network) (issue_url slack_url : pyval) :
  py_truthy issue_url && py_truthy slack_url = false →
  posts (trace (notify lib net issue_url slack_url)) = [] ∧
  result (notify lib net issue_url slack_url) = Returned tt.
Proof.
  intros H. unfold notify. rewrite H.
  by destruct (py_truthy issue_url).
Qed.

(** [Request] refuses the destination: [ValueError], before anything is
    sent. *)
Lemma notify_unknown_url_type (lib : pylib) (net : network)
    (issue_url : pyval) (url : string) :
  py_truthy issue_url = true → url ≠ "" →
  url_type_known lib url = false →
  notify lib net issue_url (PStr url) = raise ValueError.
Proof.
  intros Hi Hu Hk. unfold notify, Request. simpl py_truthy.
  apply String.eqb_neq in Hu. rewrite Hi, Hu. simpl.
  by rewrite Hk.
Qed.

(** The request is sent once.  The step goes on after a response and after
    an exception of class [URLError]; any other exception leaves it. *)
Lemma notify_sent (lib : pylib) (net : network)
    (issue_url : pyval) (url : string) :
  py_truthy issue_url = true → url ≠ "" →
  url_type_known lib url = true →
  posts (trace (notify lib net issue_url (PStr url)))
    = [slack_request lib issue_url url] ∧
  result (notify lib net issue_url (PStr url))
    = match net (slack_request lib issue_url url) with
      | Returned _ => Returned tt
      | Raised e => if is_URLError e then Returned tt else Raised e
      end.
Proof.
  intros Hi Hu Hk. unfold notify, Request. simpl py_truthy.
  apply String.eqb_neq in Hu. rewrite Hi, Hu. simpl andb. cbv iota.
  simpl py_str. rewrite Hk, bind_mret.
  fold (slack_request lib issue_url url).
  unfold try_except, urlopen.
  destruct (net (slack_request lib issue_url url)) as [st|e] eqn:E.
  - rewrite bind_returned. by simpl.
  - rewrite bind_raised. simpl snd. simpl select_clause.
    destruct e; simpl; done.
Qed.

(** *** The handler as a whole *)

Lemma warn_unset_returns (env : environ) :
  posts (trace (warn_unset env)) = [] ∧ result (warn_unset env) = Returned tt.
Proof. unfold warn_unset. by destruct (configured env). Qed.

Lemma lambda_handler_unfold (lib : pylib) (net : network) (env : environ)
    (event context : pyval) :
  lambda_handler lib net env event context =
  (warn_unset env;;
   issue_url ← extract_issue_url (payload_of lib (body_of event));
   notify lib net issue_url (os_getenv env "SLACK_URL");;
   mret (response lib (response_body issue_url (os_getenv env "SLACK_URL")))).
Proof.
  unfold lambda_handler. fold (configured env). fold (warn_unset env).
  by rewrite resolve_body_eq, bind_mret, parse_payload_total, bind_mret.
Qed.

(** With a payload that is a dictionary the handler ends the way the
    notification step does, and what it returns is the response for the
    issue URL of the payload. *)
Lemma lambda_handler_dict (lib : pylib) (net : network) (env : environ)
    (event context : pyval) (d : list (string * pyval)) :
  payload_of lib (body_of event) = PDict d →
  let slack_url := os_getenv env "SLACK_URL" in
  let issue_url := issue_url_of d in
  posts (trace (lambda_handler lib net env event context))
    = posts (trace (notify lib net issue_url slack_url)) ∧
  result (lambda_handler lib net env event context)
    = match result (notify lib net issue_url slack_url) with
      | Returned _ => Returned (response lib (response_body issue_url slack_url))
      | Raised e => Raised e
      end.
Proof.
  intros Hp. simpl. rewrite lambda_handler_unfold, Hp, extract_issue_url_dict.
  destruct (warn_unset_returns env) as [Hw1 Hw2].
  rewrite trace_bind, result_bind, Hw2, bind_mret.
  rewrite trace_bind, result_bind, posts_app, Hw1, posts_app. simpl app.
  destruct (result (notify _ _ _ _)); simpl; [|by rewrite app_nil_r].
  by rewrite app_nil_r.
Qed.

(** An exception raised while the issue URL is extracted leaves the
    handler; nothing has been sent then. *)
Lemma lambda_handler_extract_raises (lib : pylib) (net : network)
    (env : environ) (event context : pyval) (e : pyexc) :
  extract_issue_url (payload_of lib (body_of event)) = raise e →
  posts (trace (lambda_handler lib net env event context)) = [] ∧
  result (lambda_handler lib net env event context) = Raised e.
Proof.
  intros He. rewrite lambda_handler_unfold, He.
  destruct (warn_unset_returns env) as [Hw1 Hw2].
  unfold raise. rewrite bind_raised.
  by rewrite trace_bind, result_bind, Hw2, posts_app, Hw1.
Qed.

(** *** Payloads that are not dictionaries *)

Lemma extract_issue_url_scalar (payload : pyval) :
  match payload with
  | PNone | PBool _ | PInt _ | PFloat _ => True
  | _ => False
  end →
  extract_issue_url payload = raise TypeError.
Proof. by destruct payload. Qed.

Lemma extract_issue_url_list (l : list pyval) :
  extract_issue_url (PList l) =
  if existsb (is_str "issue") l then raise TypeError else mret PNone.
Proof.
  unfold extract_issue_url, py_and, py_contains. rewrite bind_mret.
  by destruct (existsb _ l).
Qed.

Lemma extract_issue_url_str (s : string) :
  extract_issue_url (PStr s) =
  if str_contains "issue" s then raise TypeError else mret PNone.
Proof.
  unfold extract_issue_url, py_and, py_contains. rewrite bind_mret.
  by destruct (str_contains _ s).
Qed.

(** Extraction has no effects; it returns a value or raises [TypeError]. *)
Lemma extract_issue_url_cases (payload : pyval) :
  (∃ issue_url, extract_issue_url payload = mret issue_url) ∨
  extract_issue_url payload = raise TypeError.
Proof.
  destruct payload as [| | | | s | l | d];
    try (right; by apply extract_issue_url_scalar).
  - rewrite extract_issue_url_str. destruct (str_contains _ s); eauto.
  - rewrite extract_issue_url_list. destruct (existsb _ l); eauto.
  - left. eexists. apply extract_issue_url_dict.
Qed.

(** Once the issue URL is extracted the handler ends the way the
    notification step does. *)
Lemma lambda_handler_extracted (lib : pylib) (net : network) (env : environ)
    (event context issue_url : pyval) :
  extract_issue_url (payload_of lib (body_of event)) = mret issue_url →
  let slack_url := os_getenv env "SLACK_URL" in
  posts (trace (lambda_handler lib net env event context))
    = posts (trace (notify lib net issue_url slack_url)) ∧
  result (lambda_handler lib net env event context)
    = match result (notify lib net issue_url slack_url) with
      | Returned _ => Returned (response lib (response_body issue_url slack_url))
      | Raised e => Raised e
      end.
Proof.
  intros He. simpl. rewrite lambda_handler_unfold, He.
  destruct (warn_unset_returns env) as [Hw1 Hw2].
  rewrite trace_bind, result_bind, Hw2, bind_mret.
  rewrite trace_bind, result_bind, posts_app, Hw1, posts_app. simpl app.
  destruct (result (notify _ _ _ _)); simpl; by rewrite app_nil_r.
Qed.

(** The value of [SLACK_URL] as the handler sees it. *)
Lemma os_getenv_cases (env : environ) (name : string) :
  (os_getenv env name = PNone ∧ env !! name = None) ∨
  (∃ s, os_getenv env name = PStr s ∧ env !! name = Some s).
Proof. unfold os_getenv. destruct (env !! name); eauto. Qed.

Lemma configured_getenv (env : environ) (url : string) :
  os_getenv env "SLACK_URL" = PStr url →
  configured env = negb (String.eqb url EmptyString).
Proof. unfold configured. by intros ->. Qed.

(** The three ways the notification step goes. *)
Lemma notify_cases (lib : pylib) (net : network) (env : environ)
    (issue_url : pyval) :
  let slack_url := os_getenv env "SLACK_URL" in
  (py_truthy issue_url && configured env = false ∧
   posts (trace (notify lib net issue_url slack_url)) = [] ∧
   result (notify lib net issue_url slack_url) = Returned tt) ∨
  (∃ url, slack_url = PStr url ∧ url ≠ EmptyString ∧
     py_truthy issue_url = true ∧ url_type_known lib url = false ∧
     notify lib net issue_url slack_url = raise ValueError) ∨
  (∃ url, slack_url = PStr url ∧ url ≠ EmptyString ∧
     py_truthy issue_url = true ∧ url_type_known lib url = true ∧
     posts (trace (notify lib net issue_url slack_url))
       = [slack_request lib issue_url url] ∧
     result (notify lib net issue_url slack_url)
       = match net (slack_request lib issue_url url) with
         | Returned _ => Returned tt
         | Raised e => if is_URLError e then Returned tt else Raised e
         end).
Proof.
  simpl. destruct (py_truthy issue_url && configured env) eqn:Hb.
  - right. apply andb_true_iff in Hb as [Hi Hc].
    apply configured_spec in Hc as (url & Hu & Hne).
    assert (os_getenv env "SLACK_URL" = PStr url) as ->
      by (unfold os_getenv; by rewrite Hu).
    destruct (url_type_known lib url) eqn:Hk.
    + right. exists url. repeat split; try done.
      all: by apply notify_sent.
    + left. exists url. repeat split; try done.
      by apply notify_unknown_url_type.
  - left. split; [done|]. by apply notify_skipped.
Qed.

(** Without a destination no request is ever sent, and a response that is
    returned says so. *)
Lemma unconfigured_never_posts (lib : pylib) (net : network) (env : environ)
    (event context : pyval) :
  configured env = false →
  posts (trace (lambda_handler lib net env event context)) = [] ∧
  ((∃ issue_url,
      result (lambda_handler lib net env event context)
        = Returned (response lib
            (PDict [("message", PStr "success"); ("issueUrl", issue_url);
                    ("connectedToSlack", PBool false)]))) ∨
   result (lambda_handler lib net env event context) = Raised TypeError).
Proof.
  intros Hc.
  destruct (extract_issue_url_cases (payload_of lib (body_of event)))
    as [[u Hu]|He].
  - destruct (lambda_handler_extracted lib net env event context u Hu)
      as [Hp Hr].
    destruct (notify_skipped lib net u (os_getenv env "SLACK_URL"))
      as [Hn1 Hn2].
    { fold (configured env). rewrite Hc. apply andb_false_r. }
    rewrite Hp, Hr, Hn1, Hn2. split; [done|]. left. exists u.
    unfold response_body. fold (configured env). by rewrite Hc.
  - destruct (lambda_handler_extract_raises lib net env event context _ He).
    split; [done|]. by right.
Qed.

(** Whatever is returned is the response for the extracted issue URL. *)
Lemma lambda_handler_returned (lib : pylib) (net : network) (env : environ)
    (event context r : pyval) :
  result (lambda_handler lib net env event context) = Returned r →
  ∃ issue_url,
    extract_issue_url (payload_of lib (body_of event)) = mret issue_url ∧
    r = response lib (response_body issue_url (os_getenv env "SLACK_URL")).
Proof.
  intros Hr.
  destruct (extract_issue_url_cases (payload_of lib (body_of event)))
    as [[u Hu]|He].
  - exists u. split; [done|].
    destruct (lambda_handler_extracted lib net env event context u Hu)
      as [_ H].
    rewrite H in Hr. destruct (result (notify _ _ _ _)); congruence.
  - destruct (lambda_handler_extract_raises lib net env event context _ He).
    congruence.
Qed.

(** Two networks whose answers the handler goes on after end the
    notification step alike. *)
Lemma notify_handled_alike (lib : pylib) (net1 net2 : network)
    (env : environ) (issue_url : pyval) :
  (∀ req, handled (net1 req) = true) →
  (∀ req, handled (net2 req) = true) →
  result (notify lib net1 issue_url (os_getenv env "SLACK_URL"))
  = result (notify lib net2 issue_url (os_getenv env "SLACK_URL")).
Proof.
  intros H1 H2.
  destruct (notify_cases lib net1 env issue_url)
    as [(Hs & _ & Hr)|[(url & Hu & Hne & Hi & Hk & Hr)
                      |(url & Hu & Hne & Hi & Hk & _ & Hr)]].
  - rewrite Hr. symmetry. by apply notify_skipped.
  - rewrite Hr, Hu. by rewrite notify_unknown_url_type.
  - rewrite Hr, Hu.
    destruct (notify_sent lib net2 issue_url url Hi Hne Hk) as [_ ->].
    specialize (H1 (slack_request lib issue_url url)).
    specialize (H2 (slack_request lib issue_url url)).
    unfold handled in *.
    destruct (net1 _), (net2 _); try done; by rewrite ?H1, ?H2.
Qed.

(** ** The properties of the handler *)

Import Reference Scenario.

(** C1 (the exits of the handler).  A body that is valid JSON but no
    object leaves the handler by an exception: for the event
    [{"body": "5"}] the payload is the integer 5, the test
    ["issue" in payload] raises [TypeError], and no response is returned,
    whatever the environment and the network.  The bodies [true], [null],
    [["issue"]] and ["an issue was opened"] end the same way. *)
Theorem lambda_handler_number_body_raises (net : network) (env : environ)
    (context : pyval) :
  json_decode cpython "5" = Some (PInt 5) ∧
  posts (trace (lambda_handler cpython net env number_event context)) = [] ∧
  result (lambda_handler cpython net env number_event context) = Raised TypeError ∧
  result (lambda_handler cpython net env true_event context) = Raised TypeError ∧
  result (lambda_handler cpython net env null_event context) = Raised TypeError ∧
  result (lambda_handler cpython net env list_event context) = Raised TypeError ∧
  result (lambda_handler cpython net env text_event context) = Raised TypeError.
Proof.
  split; [by vm_compute|].
  pose proof (λ event H,
    lambda_handler_extract_raises cpython net env event context TypeError H)
    as Hraise.
  destruct (Hraise number_event) as [Hposts Hres]; [done|].
  repeat split; try done; by apply Hraise.
Qed.

(** C3 (the issue URL of a payload that is no object).  Extraction raises
    [TypeError] on a number, a boolean and [None], and on a list or a
    string that contains ["issue"]; it gives [None] for the other lists and
    strings. *)
Theorem extract_issue_url_not_dict :
  extract_issue_url (PInt 5) = raise TypeError ∧
  extract_issue_url (PFloat (S754_zero false)) = raise TypeError ∧
  extract_issue_url (PBool true) = raise TypeError ∧
  extract_issue_url PNone = raise TypeError ∧
  extract_issue_url (PList [PStr "issue"]) = raise TypeError ∧
  extract_issue_url (PStr "an issue was opened") = raise TypeError ∧
  extract_issue_url (PList [PStr "push"]) = mret PNone ∧
  extract_issue_url (PStr "push") = mret PNone.
Proof. by repeat split. Qed.

(** C6 (no destination).  With [SLACK_URL] unset, or set to the empty
    string, the event [{"body": "null"}] still leaves the handler by
    [TypeError]: no POST is made, and no response is returned either. *)
Theorem lambda_handler_unconfigured_null_body_raises (net : network)
    (context : pyval) :
  (posts (trace (lambda_handler cpython net ∅ null_event context)) = [] ∧
   result (lambda_handler cpython net ∅ null_event context) = Raised TypeError) ∧
  (posts (trace (lambda_handler cpython net (env_with EmptyString) null_event
                   context)) = [] ∧
   result (lambda_handler cpython net (env_with EmptyString) null_event context)
     = Raised TypeError).
Proof. split; by apply lambda_handler_extract_raises. Qed.

(** C5 (a body that is no JSON).  When [json.loads] raises on the body of
    the event, the payload is [{"raw": body}]; the handler then sends
    nothing and returns status 200 with a null [issueUrl]. *)
Theorem invalid_json_acknowledged (lib : pylib) (net : network)
    (env : environ) (event context body : pyval) (e : pyexc) :
  resolve_body event = mret body →
  result (json_loads lib body) = Raised e →
  parse_payload lib body = mret (PDict [("raw", body)]) ∧
  posts (trace (lambda_handler lib net env event context)) = [] ∧
  result (lambda_handler lib net env event context)
    = Returned (PDict [("statusCode", PInt 200);
                       ("body", PStr (json_dumps lib
                          (PDict [("message", PStr "success");
                                  ("issueUrl", PNone);
                                  ("connectedToSlack",
                                   PBool (configured env))])))]).
Proof.
  intros Hb He.
  assert (payload_of lib body = PDict [("raw", body)]) as Hp.
  { unfold json_loads, payload_of in *. destruct body; try done.
    by destruct (json_decode lib s). }
  split; [by rewrite parse_payload_total, Hp|].
  rewrite resolve_body_eq in Hb. injection Hb as Hb.
  destruct (lambda_handler_dict lib net env event context [("raw", body)])
    as [Hposts Hres]; [by rewrite Hb|].
  destruct (notify_skipped lib net (issue_url_of [("raw", body)])
              (os_getenv env "SLACK_URL")) as [Hn1 Hn2]; [done|].
  by rewrite Hposts, Hres, Hn1, Hn2.
Qed.

Lemma invalid_json_acknowledged_witness :
  resolve_body garbage_event = mret (PStr "not json") ∧
  result (json_loads cpython (PStr "not json")) = Raised JSONDecodeError ∧
  result (lambda_handler cpython slack_up (env_with hook) garbage_event PNone)
    = Returned (PDict [("statusCode", PInt 200);
                       ("body", PStr (dq
    "{'message': 'success', 'issueUrl': null, 'connectedToSlack': true}"))]).
Proof.
  split; [reflexivity|]. split; [vm_compute; reflexivity|].
  destruct (invalid_json_acknowledged cpython slack_up (env_with hook)
              garbage_event PNone (PStr "not json") JSONDecodeError)
    as (_ & _ & H); [reflexivity | vm_compute; reflexivity |].
  rewrite H. vm_compute. reflexivity.
Defined.

(** C7 (the body of the event).  The raw body is the value under ["body"]
    when the event is a dictionary with that key, and the event itself
    otherwise; it is found without effect or exception.  That body is what
    is parsed: the payload is what [json.loads] gives for it, or
    [{"raw": body}] when [json.loads] raises, and all the handler does
    after the warning about [SLACK_URL] is done on that payload.  The event
    is read through its body alone: two events with the same raw body are
    handled alike, whatever else they hold. *)
Theorem raw_body_of_event (lib : pylib) (net : network) (env : environ)
    (event context : pyval) :
  ∃ body payload,
    resolve_body event = mret body ∧
    match event with
    | PDict d => match dict_lookup d "body" with
                 | Some b => body = b
                 | None => body = event
                 end
    | _ => body = event
    end ∧
    match body with
    | PStr s => match json_decode lib s with
                | Some v => payload = v
                | None => payload = PDict [("raw", body)]
                end
    | _ => payload = PDict [("raw", body)]
    end ∧
    lambda_handler lib net env event context
      = ((if negb (py_truthy (os_getenv env "SLACK_URL"))
          then print "[EsepWebhook] SLACK_URL not set in environment variables."
          else mret tt);;
         issue_url ← extract_issue_url payload;
         notify lib net issue_url (os_getenv env "SLACK_URL");;
         mret (PDict [("statusCode", PInt 200);
                      ("body", PStr (json_dumps lib
                         (PDict [("message", PStr "success");
                                 ("issueUrl", issue_url);
                                 ("connectedToSlack",
                                  PBool (py_truthy
                                           (os_getenv env "SLACK_URL")))])))])) ∧
    ∀ event' context',
      resolve_body event' = mret body →
      lambda_handler lib net env event' context'
        = lambda_handler lib net env event context.
Proof.
  exists (body_of event), (payload_of lib (body_of event)).
  split; [apply resolve_body_eq|]. split.
  { destruct event; try done. simpl. by destruct (dict_lookup d "body"). }
  split.
  { unfold payload_of. destruct (body_of event); try done.
    by destruct (json_decode lib s). }
  split; [apply lambda_handler_unfold|].
  intros event' context' H. rewrite resolve_body_eq in H.
  injection H as H. by rewrite !lambda_handler_unfold, H.
Qed.

Lemma raw_body_of_event_witness :
  resolve_body ping_event = mret (PStr (dq "{'zen': 'Keep it logically awesome.'}")) ∧
  lambda_handler cpython slack_up (env_with hook)
    (PDict [("body", PStr (dq "{'zen': 'Keep it logically awesome.'}"))]) PNone
  = lambda_handler cpython slack_up (env_with hook) ping_event (PInt 7).
Proof.
  split; [reflexivity|].
  destruct (raw_body_of_event cpython slack_up (env_with hook) ping_event
              (PInt 7)) as (body & payload & Hb & _ & _ & _ & H).
  apply H. rewrite <- Hb. reflexivity.
Defined.

(** C9 (an empty issue URL).  When the payload's issue has ["html_url"]
    equal to the empty string, nothing is sent, with or without a
    destination, and the [issueUrl] of the response is the empty string,
    not null. *)
Theorem empty_issue_url_not_notified (lib : pylib) (net : network)
    (env : environ) (event context : pyval) (s : string)
    (d issue : list (string * pyval)) :
  resolve_body event = mret (PStr s) →
  json_decode lib s = Some (PDict d) →
  dict_lookup d "issue" = Some (PDict issue) →
  dict_lookup issue "html_url" = Some (PStr EmptyString) →
  posts (trace (lambda_handler lib net env event context)) = [] ∧
  result (lambda_handler lib net env event context)
    = Returned (PDict [("statusCode", PInt 200);
                       ("body", PStr (json_dumps lib
                          (PDict [("message", PStr "success");
                                  ("issueUrl", PStr EmptyString);
                                  ("connectedToSlack",
                                   PBool (configured env))])))]).
Proof.
  intros Hb Hd Hi Hu. rewrite resolve_body_eq in Hb. injection Hb as Hb.
  destruct (lambda_handler_dict lib net env event context d) as [Hposts Hres].
  { rewrite Hb. simpl. by rewrite Hd. }
  assert (issue_url_of d = PStr EmptyString) as Hiu
    by (unfold issue_url_of; by rewrite Hi, Hu).
  rewrite Hiu in Hposts, Hres.
  destruct (notify_skipped lib net (PStr EmptyString)
              (os_getenv env "SLACK_URL")) as [Hn1 Hn2]; [done|].
  by rewrite Hposts, Hres, Hn1, Hn2.
Qed.

Lemma empty_issue_url_not_notified_witness :
  configured (env_with hook) = true ∧
  posts (trace (lambda_handler cpython slack_up (env_with hook)
                  blank_issue_event PNone)) = [] ∧
  result (lambda_handler cpython slack_up (env_with hook) blank_issue_event PNone)
    = Returned (PDict [("statusCode", PInt 200);
                       ("body", PStr (dq
    "{'message': 'success', 'issueUrl': '', 'connectedToSlack': true}"))]).
Proof.
  split; [vm_compute; reflexivity|].
  destruct (empty_issue_url_not_notified cpython slack_up (env_with hook)
              blank_issue_event PNone (dq "{'issue': {'html_url': ''}}")
              [("issue", PDict [("html_url", PStr EmptyString)])]
              [("html_url", PStr EmptyString)])
    as [H1 H2]; try (vm_compute; reflexivity).
  split; [exact H1|]. rewrite H2. vm_compute. reflexivity.
Defined.

(** C2, as it is stated, fails.  With the event of a created issue and
    [SLACK_URL] set to [not-a-url], the [Request] constructor raises
    [ValueError]: no POST is made and no response is returned.  With a
    proper destination and a connection that is closed before the answer,
    the POST is made, [urlopen] raises [RemoteDisconnected], which is no
    [URLError], and no response is returned either. *)
Lemma issue_event_not_acknowledged :
  resolve_body issue_event = mret (PStr issue_body) ∧
  json_decode cpython issue_body
    = Some (PDict [("issue", PDict [("html_url", PStr issue_url)])]) ∧
  env_with "not-a-url" !! "SLACK_URL" = Some "not-a-url" ∧
  posts (trace (lambda_handler cpython slack_up (env_with "not-a-url")
                  issue_event PNone)) = [] ∧
  result (lambda_handler cpython slack_up (env_with "not-a-url")
            issue_event PNone) = Raised ValueError ∧
  env_with hook !! "SLACK_URL" = Some hook ∧
  url_type_known cpython hook = true ∧
  result (lambda_handler cpython slack_disconnects (env_with hook)
            issue_event PNone)
    = Raised (OtherError "http.client.RemoteDisconnected").
Proof. repeat split; vm_compute; reflexivity. Qed.

(** C2, amended (an issue is notified).  The body of the event decodes to
    an object whose issue has the non-empty string [U] as ["html_url"], and
    [SLACK_URL] is the non-empty string [D].  When [Request] accepts [D]
    and [urlopen] answers or raises an exception of class [URLError], the
    handler makes exactly one POST, to [D], with the header
    [Content-Type: application/json] and the JSON encoding of
    [{"text": ":tada: New GitHub Issue created: " + U}] as data, and returns
    status 200 with the JSON encoding of
    [{"message": "success", "issueUrl": U, "connectedToSlack": true}] as
    body. *)
Theorem issue_notified (lib : pylib) (net : network) (env : environ)
    (event context : pyval) (s U D : string)
    (d issue : list (string * pyval)) :
  let req :=
    {| full_url := D;
       data := Some (encode_utf8 (json_dumps lib
                 (PDict [("text",
                          PStr (":tada: New GitHub Issue created: " +:+ U))])));
       headers := [("Content-Type", "application/json")] |} in
  resolve_body event = mret (PStr s) →
  json_decode lib s = Some (PDict d) →
  dict_lookup d "issue" = Some (PDict issue) →
  dict_lookup issue "html_url" = Some (PStr U) →
  U ≠ EmptyString →
  env !! "SLACK_URL" = Some D →
  D ≠ EmptyString →
  url_type_known lib D = true →
  handled (net req) = true →
  posts (trace (lambda_handler lib net env event context)) = [req] ∧
  get_method req = "POST" ∧
  result (lambda_handler lib net env event context)
    = Returned (PDict [("statusCode", PInt 200);
                       ("body", PStr (json_dumps lib
                          (PDict [("message", PStr "success");
                                  ("issueUrl", PStr U);
                                  ("connectedToSlack", PBool true)])))]).
Proof.
  intros req Hb Hd Hi Hu HU HD HDne Hk Hnet.
  rewrite resolve_body_eq in Hb. injection Hb as Hb.
  destruct (lambda_handler_dict lib net env event context d) as [Hposts Hres].
  { rewrite Hb. simpl. by rewrite Hd. }
  assert (issue_url_of d = PStr U) as Hiu
    by (unfold issue_url_of; by rewrite Hi, Hu).
  assert (os_getenv env "SLACK_URL" = PStr D) as Hs
    by (unfold os_getenv; by rewrite HD).
  rewrite Hiu, Hs in Hposts, Hres.
  destruct (notify_sent lib net (PStr U) D) as [Hn1 Hn2]; try done.
  { simpl. by apply negb_true_iff, String.eqb_neq. }
  change (slack_request lib (PStr U) D) with req in Hn1, Hn2.
  rewrite Hposts, Hres, Hn1, Hn2. split; [done|]. split; [done|].
  assert (py_truthy (PStr D) = true) as HDt
    by (simpl; by apply negb_true_iff, String.eqb_neq).
  unfold response, response_body. rewrite HDt.
  unfold handled in Hnet. destruct (net req); [done|]. by rewrite Hnet.
Qed.

Lemma issue_notified_witness :
  posts (trace (lambda_handler cpython slack_up (env_with hook) issue_event PNone))
    = [{| full_url := hook;
          data := Some (encode_utf8 (dq
    "{'text': ':tada: New GitHub Issue created: https://github.com/org/repo/issues/5'}"));
          headers := [("Content-Type", "application/json")] |}] ∧
  result (lambda_handler cpython slack_up (env_with hook) issue_event PNone)
    = Returned (PDict [("statusCode", PInt 200);
                       ("body", PStr (dq
    "{'message': 'success', 'issueUrl': 'https://github.com/org/repo/issues/5', 'connectedToSlack': true}"))]) ∧
  json_decode cpython (dq
    "{'message': 'success', 'issueUrl': 'https://github.com/org/repo/issues/5', 'connectedToSlack': true}")
    = Some (PDict [("message", PStr "success"); ("issueUrl", PStr issue_url);
                   ("connectedToSlack", PBool true)]).
Proof.
  destruct (issue_notified cpython slack_up (env_with hook) issue_event PNone
              issue_body issue_url hook
              [("issue", PDict [("html_url", PStr issue_url)])]
              [("html_url", PStr issue_url)])
    as (H1 & _ & H2); try (vm_compute; reflexivity); try discriminate.
  rewrite H1, H2. repeat split; vm_compute; reflexivity.
Defined.

(** C4, as it is stated, fails: an error of the outbound call that is no
    [URLError] leaves the handler.  With the destination [not-a-url]
    [Request] raises [ValueError]; with a proper destination and a
    connection that is closed before the answer, [urlopen] raises
    [RemoteDisconnected] after the request was sent.  In both runs no
    response is returned, while the same event is answered with status 200
    when the POST succeeds. *)
Lemma outbound_error_propagates :
  result (lambda_handler cpython slack_up (env_with "not-a-url")
            issue_event PNone) = Raised ValueError ∧
  posts (trace (lambda_handler cpython slack_disconnects (env_with hook)
                  issue_event PNone))
    = [slack_request cpython (PStr issue_url) hook] ∧
  result (lambda_handler cpython slack_disconnects (env_with hook)
            issue_event PNone)
    = Raised (OtherError "http.client.RemoteDisconnected") ∧
  result (lambda_handler cpython slack_up (env_with hook) issue_event PNone)
    = Returned (PDict [("statusCode", PInt 200);
                       ("body", PStr (dq
    "{'message': 'success', 'issueUrl': 'https://github.com/org/repo/issues/5', 'connectedToSlack': true}"))]).
Proof. repeat split; vm_compute; reflexivity. Qed.

(** C4, amended (a failed POST).  When the POST the handler makes raises
    [HTTPError] or [URLError], the handler catches it and returns status
    200; the response is the one it returns when the same POST succeeds,
    with the same [issueUrl] and with [connectedToSlack] true. *)
Theorem url_error_caught (lib : pylib) (net net_ok : network) (env : environ)
    (event context : pyval) (req : request) (e : pyexc) (status : Z) :
  In req (posts (trace (lambda_handler lib net env event context))) →
  net req = Raised e →
  is_URLError e = true →
  net_ok req = Returned status →
  ∃ issue_url,
    result (lambda_handler lib net env event context)
      = Returned (PDict [("statusCode", PInt 200);
                         ("body", PStr (json_dumps lib
                            (PDict [("message", PStr "success");
                                    ("issueUrl", issue_url);
                                    ("connectedToSlack", PBool true)])))]) ∧
    result (lambda_handler lib net_ok env event context)
      = result (lambda_handler lib net env event context).
Proof.
  intros Hin Hnet He Hok.
  destruct (extract_issue_url_cases (payload_of lib (body_of event)))
    as [[u Hu]|Hx].
  - destruct (lambda_handler_extracted lib net env event context u Hu)
      as [Hp Hr].
    destruct (lambda_handler_extracted lib net_ok env event context u Hu)
      as [_ Hr'].
    rewrite Hp in Hin. rewrite Hr, Hr'. clear Hp Hr Hr'.
    destruct (notify_cases lib net env u)
      as [(_ & Hn & _)|[(url & _ & _ & _ & _ & Hn)
                       |(url & Hs & Hne & Hi & Hk & Hn & Hres)]].
    + rewrite Hn in Hin. by destruct Hin.
    + rewrite Hn in Hin. by destruct Hin.
    + rewrite Hn in Hin. destruct Hin as [<-|[]].
      rewrite Hres, Hnet, He.
      rewrite Hs. destruct (notify_sent lib net_ok u url Hi Hne Hk) as [_ ->].
      rewrite Hok. exists u. split; [|done].
      unfold response, response_body. simpl py_truthy.
      apply String.eqb_neq in Hne. by rewrite Hne.
  - destruct (lambda_handler_extract_raises lib net env event context _ Hx)
      as [Hp _].
    rewrite Hp in Hin. by destruct Hin.
Qed.

Lemma url_error_caught_witness :
  result (lambda_handler cpython slack_unreachable (env_with hook)
            issue_event PNone)
    = Returned (PDict [("statusCode", PInt 200);
                       ("body", PStr (dq
    "{'message': 'success', 'issueUrl': 'https://github.com/org/repo/issues/5', 'connectedToSlack': true}"))]) ∧
  result (lambda_handler cpython slack_up (env_with hook) issue_event PNone)
    = result (lambda_handler cpython slack_unreachable (env_with hook)
                issue_event PNone).
Proof.
  destruct (url_error_caught cpython slack_unreachable slack_up (env_with hook)
              issue_event PNone (slack_request cpython (PStr issue_url) hook)
              (URLError "[Errno 111] Connection refused") 200)
    as (u & H1 & H2); try reflexivity.
  { vm_compute. left. reflexivity. }
  split; [|exact H2]. vm_compute. reflexivity.
Defined.

(** C8 (the response is determined by the event and the configuration).
    Two invocations with the same event, environment and library, under
    any two behaviours of the network: if both return, they return the same
    response; and when each network answers or fails with a [URLError], as
    an unreachable destination does both times, the two invocations end
    alike. *)
Theorem response_deterministic (lib : pylib) (net1 net2 : network)
    (env : environ) (event context : pyval) :
  (∀ r1 r2,
     result (lambda_handler lib net1 env event context) = Returned r1 →
     result (lambda_handler lib net2 env event context) = Returned r2 →
     r1 = r2) ∧
  ((∀ req, handled (net1 req) = true) →
   (∀ req, handled (net2 req) = true) →
   result (lambda_handler lib net1 env event context)
   = result (lambda_handler lib net2 env event context)).
Proof.
  split.
  - intros r1 r2 H1 H2.
    apply lambda_handler_returned in H1 as (u1 & Hu1 & ->).
    apply lambda_handler_returned in H2 as (u2 & Hu2 & ->).
    rewrite Hu1 in Hu2. by injection Hu2 as ->.
  - intros H1 H2.
    destruct (extract_issue_url_cases (payload_of lib (body_of event)))
      as [[u Hu]|Hx].
    + destruct (lambda_handler_extracted lib net1 env event context u Hu)
        as [_ ->].
      destruct (lambda_handler_extracted lib net2 env event context u Hu)
        as [_ ->].
      by rewrite (notify_handled_alike lib net1 net2 env u H1 H2).
    + destruct (lambda_handler_extract_raises lib net1 env event context _ Hx)
        as [_ ->].
      by destruct (lambda_handler_extract_raises lib net2 env event context _ Hx)
        as [_ ->].
Qed.

Lemma response_deterministic_witness :
  result (lambda_handler cpython slack_unreachable (env_with hook)
            issue_event PNone)
  = result (lambda_handler cpython slack_not_found (env_with hook)
              issue_event PNone) ∧
  result (lambda_handler cpython slack_unreachable (env_with hook)
            issue_event PNone)
  = Returned (PDict [("statusCode", PInt 200);
                     ("body", PStr (dq
    "{'message': 'success', 'issueUrl': 'https://github.com/org/repo/issues/5', 'connectedToSlack': true}"))]).
Proof.
  destruct (response_deterministic cpython slack_unreachable slack_not_found
              (env_with hook) issue_event PNone) as [_ H].
  split; [apply H; intros req; reflexivity|].
  vm_compute. reflexivity.
Defined.

(** C10 ([connectedToSlack] reports the configuration).  In every response
    the handler returns, [connectedToSlack] is true exactly when
    [SLACK_URL] is set to a non-empty string.  In particular, for a payload
    without issue and a configured destination, nothing is sent and the
    response still has [connectedToSlack] true. *)
Theorem connected_flag_is_configuration (lib : pylib) (net : network)
    (env : environ) (event context : pyval) :
  (∀ r, result (lambda_handler lib net env event context) = Returned r →
     ∃ issue_url flag,
       r = PDict [("statusCode", PInt 200);
                  ("body", PStr (json_dumps lib
                     (PDict [("message", PStr "success");
                             ("issueUrl", issue_url);
                             ("connectedToSlack", PBool flag)])))] ∧
       (flag = true ↔ ∃ url, env !! "SLACK_URL" = Some url ∧ url ≠ EmptyString)) ∧
  (∀ s d url,
     resolve_body event = mret (PStr s) →
     json_decode lib s = Some (PDict d) →
     dict_lookup d "issue" = None →
     env !! "SLACK_URL" = Some url → url ≠ EmptyString →
     posts (trace (lambda_handler lib net env event context)) = [] ∧
     result (lambda_handler lib net env event context)
       = Returned (PDict [("statusCode", PInt 200);
                          ("body", PStr (json_dumps lib
                             (PDict [("message", PStr "success");
                                     ("issueUrl", PNone);
                                     ("connectedToSlack", PBool true)])))])).
Proof.
  split.
  - intros r Hr. apply lambda_handler_returned in Hr as (u & _ & ->).
    exists u, (configured env). split; [done|]. apply configured_spec.
  - intros s d url Hb Hd Hi Hu Hne.
    rewrite resolve_body_eq in Hb. injection Hb as Hb.
    destruct (lambda_handler_dict lib net env event context d)
      as [Hposts Hres].
    { rewrite Hb. simpl. by rewrite Hd. }
    assert (issue_url_of d = PNone) as Hiu
      by (unfold issue_url_of; by rewrite Hi).
    rewrite Hiu in Hposts, Hres.
    destruct (notify_skipped lib net PNone (os_getenv env "SLACK_URL"))
      as [Hn1 Hn2]; [done|].
    rewrite Hposts, Hres, Hn1, Hn2. split; [done|].
    unfold response, response_body, os_getenv. rewrite Hu. simpl py_truthy.
    apply String.eqb_neq in Hne. by rewrite Hne.
Qed.

Lemma connected_flag_is_configuration_witness :
  posts (trace (lambda_handler cpython slack_up (env_with hook) ping_event PNone))
    = [] ∧
  result (lambda_handler cpython slack_up (env_with hook) ping_event PNone)
    = Returned (PDict [("statusCode", PInt 200);
                       ("body", PStr (dq
    "{'message': 'success', 'issueUrl': null, 'connectedToSlack': true}"))]).
Proof.
  destruct (connected_flag_is_configuration cpython slack_up (env_with hook)
              ping_event PNone) as [_ H].
  destruct (H (dq "{'zen': 'Keep it logically awesome.'}")
              [("zen", PStr "Keep it logically awesome.")] hook)
    as [H1 H2]; try (vm_compute; reflexivity); try discriminate.
  split; [exact H1|]. rewrite H2. vm_compute. reflexivity.
Defined.

(** ** Further properties of the handler *)

Import Scenario2.

Lemma prints_app (t1 t2 : list effect) :
  prints (t1 ++ t2) = prints t1 ++ prints t2.
Proof.
  induction t1 as [|[line|req] t1 IH]; simpl; [done| |]; by rewrite IH.
Qed.

(** The three steps before the notification, put together. *)
Lemma steps_extracted (lib : pylib) (event body payload issue_url : pyval) :
  resolve_body event = mret body →
  parse_payload lib body = mret payload →
  extract_issue_url payload = mret issue_url →
  extract_issue_url (payload_of lib (body_of event)) = mret issue_url.
Proof.
  intros Hb Hp Hu. rewrite resolve_body_eq in Hb. injection Hb as <-.
  rewrite parse_payload_total in Hp. by injection Hp as <-.
Qed.

Lemma steps_of_json (lib : pylib) (event : pyval) (s : string)
    (d : list (string * pyval)) :
  resolve_body event = mret (PStr s) →
  json_decode lib s = Some (PDict d) →
  payload_of lib (body_of event) = PDict d.
Proof.
  intros Hb Hd. rewrite resolve_body_eq in Hb. injection Hb as ->.
  simpl. by rewrite Hd.
Qed.

Lemma lambda_handler_trace (lib : pylib) (net : network) (env : environ)
    (event context issue_url : pyval) :
  extract_issue_url (payload_of lib (body_of event)) = mret issue_url →
  trace (lambda_handler lib net env event context)
    = trace (warn_unset env)
      ++ trace (notify lib net issue_url (os_getenv env "SLACK_URL")).
Proof.
  intros He. rewrite lambda_handler_unfold, He.
  destruct (warn_unset_returns env) as [_ Hw].
  rewrite trace_bind, Hw, bind_mret, trace_bind.
  destruct (result (notify _ _ _ _)); simpl; by rewrite app_nil_r.
Qed.

Lemma notify_skipped_eq (lib : pylib) (net : network)
    (issue_url slack_url : pyval) :
  py_truthy issue_url && py_truthy slack_url = false →
  notify lib net issue_url slack_url
  = print (if py_truthy issue_url
           then "[EsepWebhook] IssueURL detected but SLACK_URL not configured."
           else "[EsepWebhook] No issueURL found in payload.").
Proof. intros H. unfold notify. rewrite H. by destruct (py_truthy issue_url). Qed.

Lemma notify_sent_prints (lib : pylib) (net : network)
    (issue_url : pyval) (url : string) :
  py_truthy issue_url = true → url ≠ EmptyString →
  url_type_known lib url = true →
  prints (trace (notify lib net issue_url (PStr url)))
  = match net (slack_request lib issue_url url) with
    | Returned status =>
        ["[EsepWebhook] Message posted to Slack. Status: " +:+ pretty status]
    | Raised (HTTPError code reason) =>
        ["[EsepWebhook] Slack HTTPError " +:+ pretty code +:+ ": " +:+ reason]
    | Raised (URLError reason) =>
        ["[EsepWebhook] Slack URLError: " +:+ reason]
    | Raised _ => []
    end.
Proof.
  intros Hi Hu Hk. unfold notify, Request. simpl py_truthy.
  apply String.eqb_neq in Hu. rewrite Hi, Hu. simpl andb. cbv iota.
  simpl py_str. rewrite Hk, bind_mret.
  fold (slack_request lib issue_url url).
  unfold try_except, urlopen.
  destruct (net (slack_request lib issue_url url)) as [st|e] eqn:E.
  - rewrite bind_returned. by simpl.
  - rewrite bind_raised. simpl snd. simpl select_clause.
    destruct e; simpl; done.
Qed.

Lemma lambda_handler_cases (lib : pylib) (net : network) (env : environ)
    (event context : pyval) :
  (posts (trace (lambda_handler lib net env event context)) = [] ∧
   result (lambda_handler lib net env event context) = Raised TypeError) ∨
  (∃ issue_url,
     extract_issue_url (payload_of lib (body_of event)) = mret issue_url ∧
     posts (trace (lambda_handler lib net env event context))
       = posts (trace (notify lib net issue_url (os_getenv env "SLACK_URL"))) ∧
     result (lambda_handler lib net env event context)
       = match result (notify lib net issue_url (os_getenv env "SLACK_URL")) with
         | Returned _ =>
             Returned (response lib
                         (response_body issue_url (os_getenv env "SLACK_URL")))
         | Raised e => Raised e
         end).
Proof.
  destruct (extract_issue_url_cases (payload_of lib (body_of event)))
    as [[u Hu]|Hx].
  - right. exists u. split; [done|].
    by apply lambda_handler_extracted.
  - left. by apply lambda_handler_extract_raises.
Qed.

(** X1 (one request at most).  An invocation hands at most one request to
    [urlopen], whatever the event, the environment and the network; and a
    request that is made is a POST to the value of [SLACK_URL], which is
    not empty, with the single header [Content-Type: application/json]. *)
Theorem at_most_one_post (lib : pylib) (net : network) (env : environ)
    (event context : pyval) :
  (length (posts (trace (lambda_handler lib net env event context))) ≤ 1)%nat ∧
  ∀ req,
    In req (posts (trace (lambda_handler lib net env event context))) →
    ∃ url, env !! "SLACK_URL" = Some url ∧ url ≠ EmptyString ∧
           full_url req = url ∧ get_method req = "POST" ∧
           headers req = [("Content-Type", "application/json")].
Proof.
  destruct (lambda_handler_cases lib net env event context)
    as [[-> _]|(u & _ & -> & _)].
  { split; [simpl; lia|]. by intros req []. }
  destruct (notify_cases lib net env u)
    as [(_ & -> & _)|[(url & _ & _ & _ & _ & ->)
                     |(url & Hs & Hne & _ & _ & -> & _)]].
  - split; [simpl; lia|]. by intros req [].
  - split; [simpl; lia|]. by intros req [].
  - split; [simpl; lia|]. intros req [<-|[]]. exists url.
    repeat split; try done.
    destruct (os_getenv_cases env "SLACK_URL") as [[H _]|(s & H & Hs')];
      rewrite H in Hs; [done|]. by injection Hs as ->.
Qed.

Lemma at_most_one_post_witness :
  ∃ url, env_with hook !! "SLACK_URL" = Some url ∧ url ≠ EmptyString ∧
         full_url (slack_request cpython (PStr issue_url) hook) = url ∧
         get_method (slack_request cpython (PStr issue_url) hook) = "POST" ∧
         headers (slack_request cpython (PStr issue_url) hook)
           = [("Content-Type", "application/json")].
Proof.
  destruct (at_most_one_post cpython slack_up (env_with hook) issue_event PNone)
    as [_ H].
  apply H. vm_compute. left. reflexivity.
Defined.

(** X2 (the exits of the handler).  An invocation ends in one of four ways:
    it returns a response with status 200; it raises [TypeError] before any
    request, from the test of the payload; it raises [ValueError] before
    any request, from [Request]; or it raises what [urlopen] raised for the
    one request it made, an exception that is no [URLError].  No other
    status and no other exception leaves the handler. *)
Theorem lambda_handler_exits (lib : pylib) (net : network) (env : environ)
    (event context : pyval) :
  (∃ issue_url flag,
     result (lambda_handler lib net env event context)
       = Returned (PDict [("statusCode", PInt 200);
                          ("body", PStr (json_dumps lib
                             (PDict [("message", PStr "success");
                                     ("issueUrl", issue_url);
                                     ("connectedToSlack", PBool flag)])))])) ∨
  (result (lambda_handler lib net env event context) = Raised TypeError ∧
   posts (trace (lambda_handler lib net env event context)) = []) ∨
  (result (lambda_handler lib net env event context) = Raised ValueError ∧
   posts (trace (lambda_handler lib net env event context)) = []) ∨
  (∃ req e,
     posts (trace (lambda_handler lib net env event context)) = [req] ∧
     net req = Raised e ∧ is_URLError e = false ∧
     result (lambda_handler lib net env event context) = Raised e).
Proof.
  destruct (lambda_handler_cases lib net env event context)
    as [[Hp Hr]|(u & _ & Hp & Hr)].
  { right. left. by split. }
  rewrite Hp, Hr. clear Hp Hr.
  destruct (notify_cases lib net env u)
    as [(_ & _ & ->)|[(url & _ & _ & _ & _ & ->)
                     |(url & _ & _ & _ & _ & -> & ->)]].
  - left. by eexists _, _.
  - right. right. left. by split.
  - destruct (net (slack_request lib u url)) as [st|e] eqn:E.
    + left. by eexists _, _.
    + destruct (is_URLError e) eqn:He.
      * left. by eexists _, _.
      * right. right. right. by exists (slack_request lib u url), e.
Qed.

(** X3 (other exceptions of the POST).  When [urlopen] raises, for the
    request the handler made, an exception that is neither [HTTPError] nor
    [URLError], that exception leaves the handler unchanged. *)
Theorem other_exception_propagates (lib : pylib) (net : network)
    (env : environ) (event context : pyval) (req : request) (e : pyexc) :
  In req (posts (trace (lambda_handler lib net env event context))) →
  net req = Raised e →
  is_URLError e = false →
  result (lambda_handler lib net env event context) = Raised e.
Proof.
  intros Hin Hnet He.
  destruct (lambda_handler_cases lib net env event context)
    as [[Hp _]|(u & _ & Hp & Hr)]; rewrite Hp in Hin; [by destruct Hin|].
  rewrite Hr. clear Hp Hr.
  destruct (notify_cases lib net env u)
    as [(_ & Hn & _)|[(url & _ & _ & _ & _ & Hn)
                     |(url & _ & _ & _ & _ & Hn & ->)]];
    rewrite Hn in Hin; try by destruct Hin.
  destruct Hin as [<-|[]]. by rewrite Hnet, He.
Qed.

Lemma other_exception_propagates_witness :
  result (lambda_handler cpython slack_disconnects (env_with hook)
            issue_event PNone)
  = Raised (OtherError "http.client.RemoteDisconnected").
Proof.
  apply (other_exception_propagates cpython slack_disconnects (env_with hook)
           issue_event PNone (slack_request cpython (PStr issue_url) hook));
    [vm_compute; left; reflexivity | reflexivity | reflexivity].
Defined.

(** X4 (a destination without scheme).  For an event whose issue has a
    truthy ["html_url"], a non-empty [SLACK_URL] that [Request] refuses
    makes the handler raise [ValueError] before it sends or prints
    anything. *)
Theorem unknown_url_type_raises (lib : pylib) (net : network) (env : environ)
    (event context v : pyval) (s D : string)
    (d issue : list (string * pyval)) :
  resolve_body event = mret (PStr s) →
  json_decode lib s = Some (PDict d) →
  dict_lookup d "issue" = Some (PDict issue) →
  dict_lookup issue "html_url" = Some v →
  py_truthy v = true →
  env !! "SLACK_URL" = Some D →
  D ≠ EmptyString →
  url_type_known lib D = false →
  lambda_handler lib net env event context = raise ValueError.
Proof.
  intros Hb Hd Hi Hv Ht HD Hne Hk.
  pose proof (steps_of_json lib event s d Hb Hd) as Hp.
  assert (issue_url_of d = v) as Hu by (unfold issue_url_of; by rewrite Hi, Hv).
  assert (os_getenv env "SLACK_URL" = PStr D) as Hs
    by (unfold os_getenv; by rewrite HD).
  rewrite lambda_handler_unfold, Hp, extract_issue_url_dict, Hu, Hs.
  rewrite bind_mret, notify_unknown_url_type by done.
  unfold warn_unset. rewrite (configured_getenv env D Hs).
  apply String.eqb_neq in Hne. by rewrite Hne.
Qed.

Lemma unknown_url_type_raises_witness :
  lambda_handler cpython slack_up (env_with "hooks.slack.com/services/T000")
    issue_event PNone = raise ValueError.
Proof.
  apply (unknown_url_type_raises cpython slack_up
           (env_with "hooks.slack.com/services/T000") issue_event PNone
           (PStr issue_url) issue_body "hooks.slack.com/services/T000"
           [("issue", PDict [("html_url", PStr issue_url)])]
           [("html_url", PStr issue_url)]);
    try (vm_compute; reflexivity); discriminate.
Defined.

(** X5 (an object without usable issue).  When the body decodes to an
    object that has no ["issue"], or whose ["issue"] is no object, or whose
    issue has no ["html_url"], the handler sends nothing and returns status
    200 with a null [issueUrl]. *)
Theorem no_issue_url_acknowledged (lib : pylib) (net : network)
    (env : environ) (event context : pyval) (s : string)
    (d : list (string * pyval)) :
  resolve_body event = mret (PStr s) →
  json_decode lib s = Some (PDict d) →
  (dict_lookup d "issue" = None ∨
   (∃ v, dict_lookup d "issue" = Some v ∧ isinstance_dict v = false) ∨
   (∃ issue, dict_lookup d "issue" = Some (PDict issue) ∧
             dict_lookup issue "html_url" = None)) →
  posts (trace (lambda_handler lib net env event context)) = [] ∧
  result (lambda_handler lib net env event context)
    = Returned (PDict [("statusCode", PInt 200);
                       ("body", PStr (json_dumps lib
                          (PDict [("message", PStr "success");
                                  ("issueUrl", PNone);
                                  ("connectedToSlack",
                                   PBool (configured env))])))]).
Proof.
  intros Hb Hd Hcase.
  pose proof (steps_of_json lib event s d Hb Hd) as Hp.
  assert (issue_url_of d = PNone) as Hu.
  { unfold issue_url_of.
    destruct Hcase as [->|[(v & -> & Hv)|(issue & -> & ->)]]; try done.
    by destruct v. }
  destruct (lambda_handler_dict lib net env event context d Hp) as [Hposts Hres].
  rewrite Hu in Hposts, Hres.
  destruct (notify_skipped lib net PNone (os_getenv env "SLACK_URL"))
    as [Hn1 Hn2]; [done|].
  by rewrite Hposts, Hres, Hn1, Hn2.
Qed.

Lemma no_issue_url_acknowledged_witness :
  posts (trace (lambda_handler cpython slack_up (env_with hook)
                  flat_issue_event PNone)) = [] ∧
  result (lambda_handler cpython slack_up (env_with hook) flat_issue_event PNone)
    = Returned (PDict [("statusCode", PInt 200);
                       ("body", PStr (dq
    "{'message': 'success', 'issueUrl': null, 'connectedToSlack': true}"))]).
Proof.
  destruct (no_issue_url_acknowledged cpython slack_up (env_with hook)
              flat_issue_event PNone
              (dq "{'issue': 'https://github.com/org/repo/issues/5'}")
              [("issue", PStr issue_url)])
    as [H1 H2]; try (vm_compute; reflexivity).
  { right. left. exists (PStr issue_url). split; reflexivity. }
  split; [exact H1|]. rewrite H2. vm_compute. reflexivity.
Defined.

(** X6 (an event that is the payload itself).  An event that is a
    dictionary without ["body"] is never decoded: it becomes the payload
    [{"raw": event}], so whatever issue it holds is not found; nothing is
    sent and the response has a null [issueUrl]. *)
Theorem event_without_body_not_notified (lib : pylib) (net : network)
    (env : environ) (context : pyval) (d : list (string * pyval)) :
  dict_lookup d "body" = None →
  parse_payload lib (PDict d) = mret (PDict [("raw", PDict d)]) ∧
  posts (trace (lambda_handler lib net env (PDict d) context)) = [] ∧
  result (lambda_handler lib net env (PDict d) context)
    = Returned (PDict [("statusCode", PInt 200);
                       ("body", PStr (json_dumps lib
                          (PDict [("message", PStr "success");
                                  ("issueUrl", PNone);
                                  ("connectedToSlack",
                                   PBool (configured env))])))]).
Proof.
  intros Hb. split; [done|].
  destruct (lambda_handler_dict lib net env (PDict d) context
              [("raw", PDict d)]) as [Hposts Hres].
  { simpl. by rewrite Hb. }
  destruct (notify_skipped lib net (issue_url_of [("raw", PDict d)])
              (os_getenv env "SLACK_URL")) as [Hn1 Hn2]; [done|].
  by rewrite Hposts, Hres, Hn1, Hn2.
Qed.

Lemma event_without_body_not_notified_witness :
  dict_lookup [("action", PStr "opened");
               ("issue", PDict [("html_url", PStr issue_url)])] "issue"
    = Some (PDict [("html_url", PStr issue_url)]) ∧
  posts (trace (lambda_handler cpython slack_up (env_with hook)
                  decoded_event PNone)) = [] ∧
  result (lambda_handler cpython slack_up (env_with hook) decoded_event PNone)
    = Returned (PDict [("statusCode", PInt 200);
                       ("body", PStr (dq
    "{'message': 'success', 'issueUrl': null, 'connectedToSlack': true}"))]).
Proof.
  split; [reflexivity|].
  destruct (event_without_body_not_notified cpython slack_up (env_with hook)
              PNone [("action", PStr "opened");
                     ("issue", PDict [("html_url", PStr issue_url)])])
    as (_ & H1 & H2); [reflexivity|].
  split; [exact H1|]. unfold decoded_event. rewrite H2. vm_compute. reflexivity.
Defined.

(** X7 (an issue URL of any type).  The notification is gated by the truth
    value of ["html_url"], not by its type: for any truthy value [v] (a
    number, [true], a non-empty list or object as well as a non-empty
    string), with a destination [Request] accepts and a POST that is
    answered or fails with a [URLError], one POST is made whose text ends
    in [str(v)], and the response carries [v] itself as [issueUrl]. *)
Theorem truthy_issue_url_notified (lib : pylib) (net : network)
    (env : environ) (event context v : pyval) (s D : string)
    (d issue : list (string * pyval)) :
  let req :=
    {| full_url := D;
       data := Some (encode_utf8 (json_dumps lib
                 (PDict [("text",
                          PStr (":tada: New GitHub Issue created: "
                                +:+ py_str lib v))])));
       headers := [("Content-Type", "application/json")] |} in
  resolve_body event = mret (PStr s) →
  json_decode lib s = Some (PDict d) →
  dict_lookup d "issue" = Some (PDict issue) →
  dict_lookup issue "html_url" = Some v →
  py_truthy v = true →
  env !! "SLACK_URL" = Some D →
  D ≠ EmptyString →
  url_type_known lib D = true →
  handled (net req) = true →
  posts (trace (lambda_handler lib net env event context)) = [req] ∧
  result (lambda_handler lib net env event context)
    = Returned (PDict [("statusCode", PInt 200);
                       ("body", PStr (json_dumps lib
                          (PDict [("message", PStr "success");
                                  ("issueUrl", v);
                                  ("connectedToSlack", PBool true)])))]).
Proof.
  intros req Hb Hd Hi Hv Ht HD Hne Hk Hnet.
  pose proof (steps_of_json lib event s d Hb Hd) as Hp.
  assert (issue_url_of d = v) as Hu by (unfold issue_url_of; by rewrite Hi, Hv).
  assert (os_getenv env "SLACK_URL" = PStr D) as Hs
    by (unfold os_getenv; by rewrite HD).
  destruct (lambda_handler_dict lib net env event context d Hp) as [Hposts Hres].
  rewrite Hu, Hs in Hposts, Hres.
  destruct (notify_sent lib net v D Ht Hne Hk) as [Hn1 Hn2].
  change (slack_request lib v D) with req in Hn1, Hn2.
  rewrite Hposts, Hres, Hn1, Hn2. split; [done|].
  unfold response, response_body. simpl py_truthy.
  apply String.eqb_neq in Hne. rewrite Hne.
  unfold handled in Hnet. destruct (net req); [done|]. by rewrite Hnet.
Qed.

Lemma truthy_issue_url_notified_witness :
  posts (trace (lambda_handler cpython slack_up (env_with hook)
                  numbered_issue_event PNone))
    = [{| full_url := hook;
          data := Some (encode_utf8 (dq
                    "{'text': ':tada: New GitHub Issue created: 5'}"));
          headers := [("Content-Type", "application/json")] |}] ∧
  result (lambda_handler cpython slack_up (env_with hook)
            numbered_issue_event PNone)
    = Returned (PDict [("statusCode", PInt 200);
                       ("body", PStr (dq
    "{'message': 'success', 'issueUrl': 5, 'connectedToSlack': true}"))]).
Proof.
  destruct (truthy_issue_url_notified cpython slack_up (env_with hook)
              numbered_issue_event PNone (PInt 5)
              (dq "{'issue': {'html_url': 5}}") hook
              [("issue", PDict [("html_url", PInt 5)])]
              [("html_url", PInt 5)])
    as [H1 H2]; try (vm_compute; reflexivity); try discriminate.
  rewrite H1, H2. split; vm_compute; reflexivity.
Defined.

(** X8 (a falsy issue URL).  For any falsy value [v] of ["html_url"]
    (zero, [false], null, an empty list, object or string), nothing is
    sent, and the response carries [v] itself as [issueUrl]: the value is
    echoed, not replaced by null. *)
Theorem falsy_issue_url_echoed (lib : pylib) (net : network)
    (env : environ) (event context v : pyval) (s : string)
    (d issue : list (string * pyval)) :
  resolve_body event = mret (PStr s) →
  json_decode lib s = Some (PDict d) →
  dict_lookup d "issue" = Some (PDict issue) →
  dict_lookup issue "html_url" = Some v →
  py_truthy v = false →
  posts (trace (lambda_handler lib net env event context)) = [] ∧
  result (lambda_handler lib net env event context)
    = Returned (PDict [("statusCode", PInt 200);
                       ("body", PStr (json_dumps lib
                          (PDict [("message", PStr "success");
                                  ("issueUrl", v);
                                  ("connectedToSlack",
                                   PBool (configured env))])))]).
Proof.
  intros Hb Hd Hi Hv Hf.
  pose proof (steps_of_json lib event s d Hb Hd) as Hp.
  assert (issue_url_of d = v) as Hu by (unfold issue_url_of; by rewrite Hi, Hv).
  destruct (lambda_handler_dict lib net env event context d Hp) as [Hposts Hres].
  rewrite Hu in Hposts, Hres.
  destruct (notify_skipped lib net v (os_getenv env "SLACK_URL"))
    as [Hn1 Hn2]; [by rewrite Hf|].
  by rewrite Hposts, Hres, Hn1, Hn2.
Qed.

Lemma falsy_issue_url_echoed_witness :
  posts (trace (lambda_handler cpython slack_up (env_with hook)
                  zero_issue_event PNone)) = [] ∧
  result (lambda_handler cpython slack_up (env_with hook) zero_issue_event PNone)
    = Returned (PDict [("statusCode", PInt 200);
                       ("body", PStr (dq
    "{'message': 'success', 'issueUrl': 0, 'connectedToSlack': true}"))]).
Proof.
  destruct (falsy_issue_url_echoed cpython slack_up (env_with hook)
              zero_issue_event PNone (PInt 0)
              (dq "{'issue': {'html_url': 0}}")
              [("issue", PDict [("html_url", PInt 0)])]
              [("html_url", PInt 0)])
    as [H1 H2]; try (vm_compute; reflexivity).
  split; [exact H1|]. rewrite H2. vm_compute. reflexivity.
Defined.

(** X9 (an empty destination is a missing one).  Two invocations on the
    same event in environments where [SLACK_URL] is unset or empty run
    alike, lines printed and response included, whatever else the two
    environments hold and whatever the network would do in each: nothing is
    handed to [urlopen], and an empty value is treated exactly as a missing
    one. *)
Theorem empty_slack_url_is_unset (lib : pylib) (net1 net2 : network)
    (env1 env2 : environ) (event context : pyval) :
  configured env1 = false →
  configured env2 = false →
  posts (trace (lambda_handler lib net1 env1 event context)) = [] ∧
  lambda_handler lib net1 env1 event context
  = lambda_handler lib net2 env2 event context.
Proof.
  intros H1 H2.
  split; [by apply unconfigured_never_posts|].
  rewrite !lambda_handler_unfold. unfold warn_unset. rewrite H1, H2.
  simpl negb. cbv iota.
  destruct (extract_issue_url_cases (payload_of lib (body_of event)))
    as [[u Hu]|Hx]; [rewrite Hu|rewrite Hx].
  - rewrite !bind_mret.
    rewrite !notify_skipped_eq
      by (unfold configured in *; rewrite ?H1, ?H2; apply andb_false_r).
    unfold response_body. unfold configured in *. by rewrite H1, H2.
  - unfold raise. by rewrite !bind_raised.
Qed.

Lemma empty_slack_url_is_unset_witness :
  env_other !! "SLACK_URL" = None ∧
  env_with EmptyString !! "SLACK_URL" = Some EmptyString ∧
  lambda_handler cpython slack_up env_other issue_event PNone
  = lambda_handler cpython slack_disconnects (env_with EmptyString)
      issue_event PNone.
Proof.
  split; [vm_compute; reflexivity|]. split; [vm_compute; reflexivity|].
  apply (empty_slack_url_is_unset cpython slack_up slack_disconnects
           env_other (env_with EmptyString) issue_event PNone);
    vm_compute; reflexivity.
Defined.

(** X10 (the lines of a run without POST).  When the issue URL is
    extracted and it is falsy or no destination is configured, the handler
    prints the warning about [SLACK_URL] if that is unset or empty, and
    then one line that tells the two reasons apart: an issue URL without
    destination, or no issue URL. *)
Theorem skipped_notification_logged (lib : pylib) (net : network)
    (env : environ) (event context body payload issue_url : pyval) :
  resolve_body event = mret body →
  parse_payload lib body = mret payload →
  extract_issue_url payload = mret issue_url →
  py_truthy issue_url && configured env = false →
  prints (trace (lambda_handler lib net env event context))
  = (if configured env then []
     else ["[EsepWebhook] SLACK_URL not set in environment variables."])
    ++ [if py_truthy issue_url
        then "[EsepWebhook] IssueURL detected but SLACK_URL not configured."
        else "[EsepWebhook] No issueURL found in payload."].
Proof.
  intros Hb Hp Hu Hs.
  rewrite (lambda_handler_trace lib net env event context issue_url)
    by by eapply steps_extracted.
  rewrite notify_skipped_eq by done.
  rewrite prints_app. unfold warn_unset. by destruct (configured env).
Qed.

Lemma skipped_notification_logged_witness :
  prints (trace (lambda_handler cpython slack_up env_other issue_event PNone))
  = ["[EsepWebhook] SLACK_URL not set in environment variables.";
     "[EsepWebhook] IssueURL detected but SLACK_URL not configured."].
Proof.
  rewrite (skipped_notification_logged cpython slack_up env_other issue_event
             PNone (PStr issue_body)
             (PDict [("issue", PDict [("html_url", PStr issue_url)])])
             (PStr issue_url));
    vm_compute; reflexivity.
Defined.

(** X11 (the line of a POST).  When a POST is made, the handler prints
    exactly one line, which names its outcome: the status of the response,
    the code and reason of an [HTTPError], or the reason of a [URLError].
    An [HTTPError] is reported by its own clause only, although it is a
    [URLError] too; for any other exception nothing is printed. *)
Theorem post_outcome_logged (lib : pylib) (net : network) (env : environ)
    (event context body payload issue_url : pyval) (D : string) :
  let req :=
    {| full_url := D;
       data := Some (encode_utf8 (json_dumps lib
                 (PDict [("text",
                          PStr (":tada: New GitHub Issue created: "
                                +:+ py_str lib issue_url))])));
       headers := [("Content-Type", "application/json")] |} in
  resolve_body event = mret body →
  parse_payload lib body = mret payload →
  extract_issue_url payload = mret issue_url →
  py_truthy issue_url = true →
  env !! "SLACK_URL" = Some D →
  D ≠ EmptyString →
  url_type_known lib D = true →
  prints (trace (lambda_handler lib net env event context))
  = match net req with
    | Returned status =>
        ["[EsepWebhook] Message posted to Slack. Status: " +:+ pretty status]
    | Raised (HTTPError code reason) =>
        ["[EsepWebhook] Slack HTTPError " +:+ pretty code +:+ ": " +:+ reason]
    | Raised (URLError reason) =>
        ["[EsepWebhook] Slack URLError: " +:+ reason]
    | Raised _ => []
    end.
Proof.
  intros req Hb Hp Hu Ht HD Hne Hk.
  assert (os_getenv env "SLACK_URL" = PStr D) as Hs
    by (unfold os_getenv; by rewrite HD).
  rewrite (lambda_handler_trace lib net env event context issue_url)
    by by eapply steps_extracted.
  rewrite Hs, prints_app, notify_sent_prints by done.
  unfold warn_unset. rewrite (configured_getenv env D Hs).
  apply String.eqb_neq in Hne. by rewrite Hne.
Qed.

Lemma post_outcome_logged_witness :
  prints (trace (lambda_handler cpython slack_not_found (env_with hook)
                   issue_event PNone))
  = ["[EsepWebhook] Slack HTTPError 404: Not Found"].
Proof.
  rewrite (post_outcome_logged cpython slack_not_found (env_with hook)
             issue_event PNone (PStr issue_body)
             (PDict [("issue", PDict [("html_url", PStr issue_url)])])
             (PStr issue_url) hook);
    try (vm_compute; reflexivity). discriminate.
Defined.
